(** * StudyWithMe: the Streamlit study page ([app2.py])

    The page is a Streamlit script: every user interaction re-executes the
    file from top to bottom against the per-session dictionary
    [st.session_state].  This development embeds one such pass as a program
    in a small state/output monad, with

    - [st.session_state] as a finite map from attribute names to Python
      values,
    - the values returned by the input widgets and the button that was
      clicked as the inputs of the pass,
    - the Gemini client and the PDF parser as oracles that either return
      or raise,
    - the calls that put something on the page ([st.warning], [st.error],
      the output widgets, ...) and the network call as an event list.

    The store holds the attributes the script itself assigns (the seven
    slots); the entries Streamlit keeps in [st.session_state] for its keyed
    widgets ([concept_area], [explain_copy_area], ...) are not part of it.

    Python [str] is embedded as [string]; one [ascii] stands for one
    character (code points 0..255), [len] counts them.  The configuration
    prologue (API key, model construction) and the static page furniture
    (title, headers, captions, separators, column layout) produce no
    event. *)

From Stdlib Require Import ZArith Ascii String DecimalString List.
From stdpp Require Import base option gmap strings list fin_maps.

Local Open Scope string_scope.
Local Open Scope list_scope.
Local Open Scope Z_scope.

(** ** Python strings *)

Module Py.

(** [len(s)] *)
Definition len (s : string) : Z := Z.of_nat (String.length s).

(** Truth value of a [str]: non-empty. *)
Definition truthy (s : string) : bool :=
  match s with
  | EmptyString => false
  | String _ _ => true
  end.

(** The first [n] characters of [s] (all of [s] when it is shorter). *)
Fixpoint take (n : nat) (s : string) : string :=
  match n, s with
  | O, _ => EmptyString
  | S _, EmptyString => EmptyString
  | S n', String c s' => String c (take n' s')
  end.

(** [s[:n]]: a negative bound counts from the end. *)
Definition slice_to (s : string) (n : Z) : string :=
  if (n <? 0)%Z then take (Z.to_nat (len s + n)) s
  else take (Z.to_nat n) s.

(** [str(n)] for an [int], as an f-string formats it. *)
Definition str_of_int (n : Z) : string :=
  NilZero.string_of_int (Z.to_int n).

(** [c.isspace()] on the characters below 256. *)
Definition isspace (c : ascii) : bool :=
  let n := N_of_ascii c in
  (((9 <=? n) && (n <=? 13)) || ((28 <=? n) && (n <=? 32))
   || (n =? 133) || (n =? 160))%N.

Fixpoint lstrip (s : string) : string :=
  match s with
  | EmptyString => EmptyString
  | String c s' => if isspace c then lstrip s' else s
  end.

Fixpoint rstrip (s : string) : string :=
  match s with
  | EmptyString => EmptyString
  | String c s' =>
      match rstrip s' with
      | EmptyString => if isspace c then EmptyString else String c EmptyString
      | r => String c r
      end
  end.

(** [s.strip()] *)
Definition strip (s : string) : string := rstrip (lstrip s).

(** Every character of [s] is white space ([s] may be empty). *)
Fixpoint all_space (s : string) : bool :=
  match s with
  | EmptyString => true
  | String c s' => isspace c && all_space s'
  end.

Definition NL : string := String "010"%char EmptyString.
Definition DQ : string := String "034"%char EmptyString.

(** An exception object; [str e] is what [f"{e}"] prints. *)
Record exn := Exn { str : string }.

(** Outcome of a call that may raise. *)
Inductive result (A : Type) :=
| Ok (a : A)
| Raise (e : exn).
Arguments Ok {A} a.
Arguments Raise {A} e.

End Py.

Import Py.

(** ** Uploaded documents, as [pypdf] sees them *)

(** A page: [page.extract_text()] returns its text or raises. *)
Record PageObject := { extract_text : result string }.

(** An uploaded file: [pypdf.PdfReader(f)] raises on a file it cannot
    parse, otherwise [.pages] is the list of pages. *)
Record UploadedFile := { PdfReader : result (list PageObject) }.

(** The loop of [extract_text_from_pdf] (lines 33-34), [text_content]
    being the accumulator. *)
Fixpoint extract_pages (text_content : string) (pages : list PageObject)
  : result string :=
  match pages with
  | [] => Ok text_content
  | page :: rest =>
      match extract_text page with
      | Ok t => extract_pages (text_content +:+ t +:+ NL) rest
      | Raise e => Raise e
      end
  end.

Definition extract_text_from_pdf (uploaded_file : UploadedFile) : result string :=
  match PdfReader uploaded_file with
  | Ok pages => extract_pages "" pages
  | Raise e => Raise e
  end.

(** ** Session state, events and the page monad *)

(** Values held by [st.session_state]. *)
Inductive pyval :=
| PStr (s : string)
| PNone
| PFile (f : UploadedFile).

(** Truth value of an object, as [if output_text:] tests it. *)
Definition bool_of (v : pyval) : bool :=
  match v with
  | PStr s => truthy s
  | PNone => false
  | PFile _ => true
  end.

Inductive ui_event :=
| st_write (body : string)
| st_warning (body : string)
| st_error (body : string)
| st_info (body : string)
| st_exception (e : exn)
| st_spinner (text : string)
| st_subheader (body : string)
| st_text_area (key : string) (value : pyval)      (* the copy field *)
| st_expander_markdown (label : string) (body : pyval)
| generate_content (prompt : string).              (* the network call *)

(** What stops a pass before its last line. *)
Inductive signal :=
| RerunException
| AttributeError (name : string).

Record outcome (A : Type) := Outcome {
  returned : A + signal;
  store : gmap string pyval;
  shown : list ui_event
}.
Arguments Outcome {A} _ _ _.
Arguments returned {A} _.
Arguments store {A} _.
Arguments shown {A} _.

Definition page (A : Type) : Type := gmap string pyval → outcome A.

Definition page_ret {A} (a : A) : page A := λ s, Outcome (inl a) s [].

Definition page_bind {A B} (f : A → page B) (m : page A) : page B :=
  λ s,
    match m s with
    | Outcome (inl a) s1 l1 =>
        match f a s1 with
        | Outcome r s2 l2 => Outcome r s2 (l1 ++ l2)
        end
    | Outcome (inr sig) s1 l1 => Outcome (inr sig) s1 l1
    end.

#[global] Instance page_mret : MRet page := @page_ret.
#[global] Instance page_mbind : MBind page := @page_bind.

(** [st.<call>(...)] *)
Definition emit (e : ui_event) : page unit := λ s, Outcome (inl tt) s [e].

(** [name in st.session_state] *)
Definition has_attr (name : string) : page bool :=
  λ s, Outcome (inl (bool_decide (is_Some (s !! name)))) s [].

(** [st.session_state.name] *)
Definition get_attr (name : string) : page pyval :=
  λ s,
    match s !! name with
    | Some v => Outcome (inl v) s []
    | None => Outcome (inr (AttributeError name)) s []
    end.

(** [st.session_state.name = v] *)
Definition set_attr (name : string) (v : pyval) : page unit :=
  λ s, Outcome (inl tt) (<[name := v]> s) [].

(** [st.experimental_rerun()] *)
Definition experimental_rerun : page unit :=
  λ s, Outcome (inr RerunException) s [].

Definition when (b : bool) (m : page unit) : page unit :=
  if b then m else mret tt.

(** [if name not in st.session_state: st.session_state.name = v] *)
Definition setdefault (name : string) (v : pyval) : page unit :=
  b ← has_attr name;
  when (negb b) (set_attr name v).

(** ** The page *)

(** What the input widgets return in one pass: the two text areas, the
    file uploader and the topic field. *)
Record widgets := {
  concept_input : string;
  notes_input : string;
  uploaded_file : option UploadedFile;
  quiz_topic_input : string
}.

(** The buttons of the page; at most one is clicked in a pass. *)
Inductive button :=
| ExplainConcept
| ClearExplain
| SummarizeContent
| ClearSummarize
| GenerateQuiz
| GenerateFlashcards
| ClearQuiz.

#[global] Instance button_eq_dec : EqDecision button.
Proof. solve_decision. Defined.

(** [col.button(...)]: true in the pass its click triggered. *)
Definition pressed (clicked : option button) (b : button) : bool :=
  bool_decide (clicked = Some b).

Definition display_ai_output (output_text : pyval) (label key_prefix : string)
  : page unit :=
  if bool_of output_text then
    emit (st_subheader label);;
    emit (st_text_area (key_prefix +:+ "_copy_area") output_text);;
    emit (st_expander_markdown "Read Full Output" output_text)
  else
    emit (st_info "AI output will appear here.").

Definition MAX_CHARS_FOR_GEMINI : Z := 50000.

Definition explain_prompt (concept_input : string) : string :=
  "Explain the following concept in simple terms for a student, focusing on clarity and easy understanding: "
  +:+ concept_input.

Definition summarize_prompt (content_to_summarize : string) : string :=
  "Summarize the following study notes concisely, highlighting the main points and key takeaways. Aim for a summary that captures the essence of the notes: "
  +:+ content_to_summarize.

Definition quiz_prompt (quiz_topic_input : string) : string :=
  "Generate a short quiz (3-4 questions) with answers on the topic of '"
  +:+ quiz_topic_input
  +:+ "'. Include various question types like multiple-choice, true/false, and short answer. Clearly label questions and answers.".

Definition flashcards_prompt (quiz_topic_input : string) : string :=
  "Generate 3-4 flashcards for studying '" +:+ quiz_topic_input
  +:+ "'. For each flashcard, provide a clear question/term on the "
  +:+ DQ +:+ "front" +:+ DQ +:+ " and its answer/definition on the "
  +:+ DQ +:+ "back" +:+ DQ +:+ ". Format each flashcard clearly, for example:"
  +:+ NL +:+ "                **Flashcard 1 - Front:** [Question]"
  +:+ NL +:+ "                **Flashcard 1 - Back:** [Answer]".

Definition truncation_warning (original_length : Z) : string :=
  "Your input is very long (" +:+ str_of_int original_length
  +:+ " characters). Summarizing the first "
  +:+ str_of_int MAX_CHARS_FOR_GEMINI
  +:+ " characters to fit AI limits. For very long documents, consider summarizing in chunks.".

Section Page.

(** [model.generate_content(prompt).text]: the generated text, or the
    exception raised by the client or by reading [.text]. *)
Variable model : string → result string.

Definition call_model (prompt : string) : page (result string) :=
  λ s, Outcome (inl (model prompt)) s [generate_content prompt].

(** *** Feature 1: explain a concept (lines 73-115) *)

Definition explain_button (concept_input : string) : page unit :=
  if truthy concept_input then
    set_attr "explain_input" (PStr concept_input);;
    emit (st_spinner "AI is thinking...");;
    response ← call_model (explain_prompt concept_input);
    match response with
    | Ok text => set_attr "explain_output" (PStr text)
    | Raise e =>
        emit (st_error ("Error generating explanation: " +:+ str e));;
        set_attr "explain_output" (PStr ("Error: " +:+ str e))
    end
  else
    emit (st_warning "Please enter a concept to explain.");;
    set_attr "explain_output" (PStr "").

Definition clear_explain : page unit :=
  set_attr "explain_input" (PStr "");;
  set_attr "explain_output" (PStr "");;
  experimental_rerun.

Definition explain_section (w : widgets) (clicked : option button) : page unit :=
  setdefault "explain_input" (PStr "");;
  setdefault "explain_output" (PStr "");;
  _ ← get_attr "explain_input";
  when (pressed clicked ExplainConcept) (explain_button (concept_input w));;
  when (pressed clicked ClearExplain) clear_explain;;
  output_text ← get_attr "explain_output";
  display_ai_output output_text "Explanation Output" "explain".

(** *** Feature 2: summarize notes (lines 119-205) *)

Definition clear_summarize : page unit :=
  set_attr "summarize_input" (PStr "");;
  set_attr "summarize_output" (PStr "");;
  set_attr "uploaded_file" PNone;;
  experimental_rerun.

(** First half of the [if summarize_button:] block (lines 161-178):
    choose [content_to_summarize]. *)
Definition summarize_collect (w : widgets) : page string :=
  match uploaded_file w with
  | Some f =>
      emit (st_write "Processing PDF...");;
      match extract_text_from_pdf f with
      | Ok content_to_summarize =>
          set_attr "uploaded_file" (PFile f);;
          if negb (truthy (strip content_to_summarize)) then
            emit (st_warning "Could not extract readable text from the PDF. Please try pasting notes directly.");;
            set_attr "summarize_output"
              (PStr "Error: Could not extract readable text from PDF.");;
            mret ""
          else mret content_to_summarize
      | Raise e =>
          emit (st_error ("Error reading PDF: " +:+ str e
                          +:+ ". Please ensure it's a valid PDF or try pasting text."));;
          set_attr "summarize_output" (PStr ("Error reading PDF: " +:+ str e));;
          mret ""
      end
  | None =>
      if truthy (notes_input w) then
        set_attr "summarize_input" (PStr (notes_input w));;
        mret (notes_input w)
      else mret ""
  end.

(** Second half (lines 180-203): truncate, ask the model, store the
    answer. *)
Definition summarize_send (content_to_summarize : string) : page unit :=
  if truthy content_to_summarize then
    let original_length := len content_to_summarize in
    content_to_summarize ←
      (if (original_length >? MAX_CHARS_FOR_GEMINI)%Z then
         emit (st_warning (truncation_warning original_length));;
         mret (slice_to content_to_summarize MAX_CHARS_FOR_GEMINI)
       else mret content_to_summarize);
    emit (st_spinner "AI is summarizing...");;
    response ← call_model (summarize_prompt content_to_summarize);
    match response with
    | Ok text => set_attr "summarize_output" (PStr text)
    | Raise e =>
        emit (st_error ("Error generating summary: " +:+ str e));;
        set_attr "summarize_output" (PStr ("Error: " +:+ str e));;
        emit (st_exception e)
    end
  else
    emit (st_warning "Please paste notes or upload a PDF document to summarize.");;
    set_attr "summarize_output" (PStr "").

Definition summarize_button (w : widgets) : page unit :=
  content_to_summarize ← summarize_collect w;
  summarize_send content_to_summarize.

Definition summarize_section (w : widgets) (clicked : option button) : page unit :=
  setdefault "summarize_input" (PStr "");;
  setdefault "summarize_output" (PStr "");;
  setdefault "uploaded_file" PNone;;
  _ ← get_attr "summarize_input";
  when (pressed clicked ClearSummarize) clear_summarize;;
  when (pressed clicked SummarizeContent) (summarize_button w);;
  output_text ← get_attr "summarize_output";
  display_ai_output output_text "Summary Output" "summarize".

(** *** Feature 3: quizzes and flashcards (lines 209-267) *)

Definition quiz_button (quiz_topic_input : string) : page unit :=
  if truthy quiz_topic_input then
    set_attr "quiz_topic_input" (PStr quiz_topic_input);;
    emit (st_spinner "AI is creating a quiz...");;
    response ← call_model (quiz_prompt quiz_topic_input);
    match response with
    | Ok text => set_attr "quiz_flashcard_output" (PStr text)
    | Raise e =>
        emit (st_error ("Error generating quiz: " +:+ str e));;
        set_attr "quiz_flashcard_output" (PStr ("Error: " +:+ str e))
    end
  else
    emit (st_warning "Please enter a topic for the quiz.");;
    set_attr "quiz_flashcard_output" (PStr "").

Definition flashcards_button (quiz_topic_input : string) : page unit :=
  if truthy quiz_topic_input then
    set_attr "quiz_topic_input" (PStr quiz_topic_input);;
    emit (st_spinner "AI is making flashcards...");;
    response ← call_model (flashcards_prompt quiz_topic_input);
    match response with
    | Ok text => set_attr "quiz_flashcard_output" (PStr text)
    | Raise e =>
        emit (st_error ("Error generating flashcards: " +:+ str e));;
        set_attr "quiz_flashcard_output" (PStr ("Error: " +:+ str e))
    end
  else
    emit (st_warning "Please enter a topic for flashcards.");;
    set_attr "quiz_flashcard_output" (PStr "").

Definition clear_quiz : page unit :=
  set_attr "quiz_topic_input" (PStr "");;
  set_attr "quiz_flashcard_output" (PStr "");;
  experimental_rerun.

Definition quiz_section (w : widgets) (clicked : option button) : page unit :=
  setdefault "quiz_topic_input" (PStr "");;
  setdefault "quiz_flashcard_output" (PStr "");;
  _ ← get_attr "quiz_topic_input";
  when (pressed clicked GenerateQuiz) (quiz_button (quiz_topic_input w));;
  when (pressed clicked GenerateFlashcards) (flashcards_button (quiz_topic_input w));;
  when (pressed clicked ClearQuiz) clear_quiz;;
  output_text ← get_attr "quiz_flashcard_output";
  display_ai_output output_text "Quiz / Flashcard Output" "quiz".

(** *** One pass over the file, and one user interaction *)

Definition script (w : widgets) (clicked : option button) : page unit :=
  explain_section w clicked;;
  summarize_section w clicked;;
  quiz_section w clicked.

(** A click runs the script with that button pressed; a rerun request
    aborts the pass and runs the script again, no button pressed, on the
    store as the aborted pass left it ([w'] is what the widgets return
    then).  The events of both passes are listed in order. *)
Definition click (w : widgets) (b : button) (w' : widgets) : page unit :=
  λ s,
    let o := script w (Some b) s in
    match returned o with
    | inr RerunException =>
        let o' := script w' None (store o) in
        Outcome (returned o') (store o') (shown o ++ shown o')
    | _ => o
    end.

End Page.

(** ** Vocabulary of the statements *)

(** The three features of the page and the attributes each one owns. *)
Inductive feature := Explain | Summarize | Quiz.

Definition feature_of (b : button) : feature :=
  match b with
  | ExplainConcept | ClearExplain => Explain
  | SummarizeContent | ClearSummarize => Summarize
  | GenerateQuiz | GenerateFlashcards | ClearQuiz => Quiz
  end.

Definition input_slot (f : feature) : string :=
  match f with
  | Explain => "explain_input"
  | Summarize => "summarize_input"
  | Quiz => "quiz_topic_input"
  end.

Definition output_slot (f : feature) : string :=
  match f with
  | Explain => "explain_output"
  | Summarize => "summarize_output"
  | Quiz => "quiz_flashcard_output"
  end.

Definition own_slots (f : feature) : list string :=
  match f with
  | Summarize => [input_slot f; output_slot f; "uploaded_file"]
  | _ => [input_slot f; output_slot f]
  end.

Definition slots : list string :=
  own_slots Explain ++ own_slots Summarize ++ own_slots Quiz.

(** A store in which every attribute of the page exists: what a complete
    pass leaves behind, hence the store of every pass in which a button
    can have been clicked. *)
Definition initialised (s : gmap string pyval) : Prop :=
  Forall (λ k, is_Some (s !! k)) slots.

Definition is_clear (b : button) : bool :=
  match b with
  | ClearExplain | ClearSummarize | ClearQuiz => true
  | _ => false
  end.

Definition is_action (b : button) : bool := negb (is_clear b).

(** The block a button runs. *)
Definition handler (model : string → result string) (b : button) (w : widgets)
  : page unit :=
  match b with
  | ExplainConcept => explain_button model (concept_input w)
  | ClearExplain => clear_explain
  | SummarizeContent => summarize_button model w
  | ClearSummarize => clear_summarize
  | GenerateQuiz => quiz_button model (quiz_topic_input w)
  | GenerateFlashcards => flashcards_button model (quiz_topic_input w)
  | ClearQuiz => clear_quiz
  end.

(** The button's required input is missing: the text field is empty
    and, for the summary, no file is uploaded either. *)
Definition no_input (b : button) (w : widgets) : Prop :=
  match b with
  | ExplainConcept => concept_input w = ""
  | SummarizeContent => uploaded_file w = None ∧ notes_input w = ""
  | GenerateQuiz | GenerateFlashcards => quiz_topic_input w = ""
  | _ => False
  end.

(** The text a button hands to its prompt template. *)
Definition typed_input (b : button) (w : widgets) : string :=
  match b with
  | ExplainConcept => concept_input w
  | SummarizeContent => notes_input w
  | GenerateQuiz | GenerateFlashcards => quiz_topic_input w
  | _ => ""
  end.

Definition empty_input_warning (b : button) : string :=
  match b with
  | ExplainConcept => "Please enter a concept to explain."
  | SummarizeContent => "Please paste notes or upload a PDF document to summarize."
  | GenerateQuiz => "Please enter a topic for the quiz."
  | GenerateFlashcards => "Please enter a topic for flashcards."
  | _ => ""
  end.

Definition unreadable_pdf_warning : string :=
  "Could not extract readable text from the PDF. Please try pasting notes directly.".

(** The prompts sent over the network, in order. *)
Fixpoint prompts (l : list ui_event) : list string :=
  match l with
  | [] => []
  | generate_content p :: l' => p :: prompts l'
  | _ :: l' => prompts l'
  end.

(** Events of the output area ([display_ai_output]). *)
Definition is_rendering (e : ui_event) : bool :=
  match e with
  | st_subheader _ | st_text_area _ _ | st_expander_markdown _ _ | st_info _ => true
  | _ => false
  end.

(** Everything else: messages, spinners and network calls. *)
Definition notices (l : list ui_event) : list ui_event :=
  List.filter (λ e, negb (is_rendering e)) l.

(** What [display_ai_output] puts on the page. *)
Definition rendering (output_text : pyval) (label key_prefix : string)
  : list ui_event :=
  if bool_of output_text then
    [st_subheader label;
     st_text_area (key_prefix +:+ "_copy_area") output_text;
     st_expander_markdown "Read Full Output" output_text]
  else [st_info "AI output will appear here."].

Definition slot (s : gmap string pyval) (name : string) : pyval :=
  default PNone (s !! name).

Definition output_area (f : feature) (s : gmap string pyval) : list ui_event :=
  match f with
  | Explain => rendering (slot s "explain_output") "Explanation Output" "explain"
  | Summarize => rendering (slot s "summarize_output") "Summary Output" "summarize"
  | Quiz => rendering (slot s "quiz_flashcard_output") "Quiz / Flashcard Output" "quiz"
  end.

(** The events of a pass in which a button of feature [f] showed [l],
    started on [s] and ended on [s']. *)
Definition pass_events (f : feature) (s : gmap string pyval) (l : list ui_event)
    (s' : gmap string pyval) : list ui_event :=
  match f with
  | Explain =>
      l ++ output_area Explain s' ++ output_area Summarize s' ++ output_area Quiz s'
  | Summarize =>
      output_area Explain s ++ l ++ output_area Summarize s' ++ output_area Quiz s'
  | Quiz =>
      output_area Explain s ++ output_area Summarize s ++ l ++ output_area Quiz s'
  end.

(** The store a Clear button leaves, and what the aborted pass had
    already drawn. *)
Definition cleared (b : button) (s : gmap string pyval) : gmap string pyval :=
  match b with
  | ClearExplain =>
      <["explain_output" := PStr ""]> (<["explain_input" := PStr ""]> s)
  | ClearSummarize =>
      <["uploaded_file" := PNone]>
        (<["summarize_output" := PStr ""]>
           (<["summarize_input" := PStr ""]> s))
  | ClearQuiz =>
      <["quiz_flashcard_output" := PStr ""]>
        (<["quiz_topic_input" := PStr ""]> s)
  | _ => s
  end.

Definition drawn_before (b : button) (s : gmap string pyval) : list ui_event :=
  match b with
  | ClearSummarize => output_area Explain s
  | ClearQuiz => output_area Explain s ++ output_area Summarize s
  | _ => []
  end.

(** [sub] occurs in [s]. *)
Definition mentions (s sub : string) : Prop :=
  ∃ pre post, s = pre +:+ sub +:+ post.

(** The text [s] is made of white space only (it may be empty). *)
Definition whitespace_only (s : string) : Prop := all_space s = true.

(** The pages' texts joined by single newlines, as the specification
    words the extractor's result. *)
Definition pages_joined_by_newline (texts : list string) : string :=
  String.concat NL texts.

(** Each page's text followed by a newline, in page order. *)
Definition pages_each_ended_by_newline (texts : list string) : string :=
  fold_right (λ t rest, t +:+ NL +:+ rest) "" texts.

(** The prompt template of an action button. *)
Definition prompt_template (b : button) : string → string :=
  match b with
  | ExplainConcept => explain_prompt
  | SummarizeContent => summarize_prompt
  | GenerateQuiz => quiz_prompt
  | GenerateFlashcards => flashcards_prompt
  | _ => λ payload, payload
  end.

Definition spinner_text (b : button) : string :=
  match b with
  | ExplainConcept => "AI is thinking..."
  | SummarizeContent => "AI is summarizing..."
  | GenerateQuiz => "AI is creating a quiz..."
  | GenerateFlashcards => "AI is making flashcards..."
  | _ => ""
  end.

(** What [st.error] prints before the exception's message. *)
Definition error_label (b : button) : string :=
  match b with
  | ExplainConcept => "Error generating explanation: "
  | SummarizeContent => "Error generating summary: "
  | GenerateQuiz => "Error generating quiz: "
  | GenerateFlashcards => "Error generating flashcards: "
  | _ => ""
  end.

(** The buttons whose handler is: test the text field, ask, store. *)
Definition is_simple (b : button) : bool :=
  match b with
  | ExplainConcept | GenerateQuiz | GenerateFlashcards => true
  | _ => false
  end.

(** What an output slot receives once the model has been asked. *)
Definition reply_text (response : result string) : string :=
  match response with
  | Ok text => text
  | Raise e => "Error: " +:+ str e
  end.


(** A document that parses, with the given page texts. *)
Definition pdf_of_pages (texts : list string) : UploadedFile :=
  {| PdfReader := Ok (map (λ t, {| extract_text := Ok t |}) texts) |}.

(** [n] copies of the character [c]. *)
Fixpoint replicate_char (n : nat) (c : ascii) : string :=
  match n with
  | O => EmptyString
  | S n' => String c (replicate_char n' c)
  end.

(** ** Sample inputs *)

(** Nothing typed, nothing uploaded. *)
Definition blank_page : widgets :=
  {| concept_input := ""; notes_input := ""; uploaded_file := None;
     quiz_topic_input := "" |}.

(** A model that answers every prompt. *)
Definition echo : string → result string :=
  λ prompt, Ok ("Answer to: " +:+ prompt).

(** A model whose answer is the empty text. *)
Definition mute : string → result string := λ _, Ok "".

(** A model that is out of quota. *)
Definition quota_exceeded : string → result string :=
  λ _, Raise (Exn "429 quota exceeded").

(** The session store after the first pass of a fresh session. *)
Definition first_render : gmap string pyval :=
  store (script echo blank_page None ∅).

(** "Photosynthesis" typed into the concept box. *)
Definition photosynthesis_page : widgets :=
  {| concept_input := "Photosynthesis"; notes_input := "";
     uploaded_file := None; quiz_topic_input := "" |}.

(** What [echo] answers to the explain prompt for it. *)
Definition photosynthesis_answer : string :=
  "Answer to: " +:+ explain_prompt "Photosynthesis".

(** A session that holds an explanation. *)
Definition answered_session : gmap string pyval :=
  store (click echo photosynthesis_page ExplainConcept photosynthesis_page
           first_render).

(** Sixty thousand characters pasted into the notes box. *)
Definition long_notes : string := replicate_char (Z.to_nat 60000) "a"%char.

Definition long_notes_page : widgets :=
  {| concept_input := ""; notes_input := long_notes; uploaded_file := None;
     quiz_topic_input := "" |}.

(** A scanned document: two pages, no text layer. *)
Definition scanned_pdf : UploadedFile := pdf_of_pages [""; "  "].

Definition scanned_pdf_page : widgets :=
  {| concept_input := ""; notes_input := "my notes";
     uploaded_file := Some scanned_pdf; quiz_topic_input := "" |}.

(** A two-page document with text, uploaded while notes are pasted. *)
Definition biology_pdf : UploadedFile := pdf_of_pages ["Cells"; "Mitosis"].

Definition pdf_and_notes_page : widgets :=
  {| concept_input := ""; notes_input := "my notes";
     uploaded_file := Some biology_pdf; quiz_topic_input := "" |}.

(** A topic typed into the quiz field. *)
Definition cell_biology_page : widgets :=
  {| concept_input := ""; notes_input := ""; uploaded_file := None;
     quiz_topic_input := "Cell Biology" |}.

(** ** The rest of the file *)

(** *** Start-up (lines 11-27) *)

(** What the process finds when it starts: the value of
    [os.getenv("GEMINI_API_KEY")] once [key.env] is loaded, and what
    [genai.GenerativeModel("gemini-pro-latest")] does. *)
Record environment := {
  GEMINI_API_KEY : option string;
  GenerativeModel : result (string → result string)
}.

(** What ends a run of the whole file: [st.stop()], or a signal of the
    page. *)
Inductive halt :=
| StopException
| Interrupted (sig : signal).

Record app_outcome := AppOutcome {
  finished : unit + halt;
  session : gmap string pyval;
  drawn : list ui_event
}.

(** [not gemini_api_key] *)
Definition key_missing (gemini_api_key : option string) : bool :=
  match gemini_api_key with
  | Some key => negb (truthy key)
  | None => true
  end.

(** One run of the file, start-up included. *)
Definition app (env : environment) (w : widgets) (clicked : option button)
    (s : gmap string pyval) : app_outcome :=
  if key_missing (GEMINI_API_KEY env) then
    AppOutcome (inr StopException) s
      [st_error "GEMINI_API_KEY not found. Please set it in a .env file or as an environment variable."]
  else
    match GenerativeModel env with
    | Raise e =>
        AppOutcome (inr StopException) s
          [st_error ("Failed to initialize Gemini model. Please check your API key and network connection: "
                     +:+ str e)]
    | Ok model =>
        let o := script model w clicked s in
        AppOutcome
          match returned o with
          | inl _ => inl tt
          | inr sig => inr (Interrupted sig)
          end
          (store o) (shown o)
    end.

(** *** The counter under the notes box (lines 139-142) *)

(** [s.split()]: the maximal runs of characters that are not white space;
    [word] is the run being read. *)
Fixpoint split_from (word s : string) : list string :=
  match s with
  | EmptyString => if truthy word then [word] else []
  | String c s' =>
      if isspace c then
        if truthy word then word :: split_from "" s' else split_from "" s'
      else split_from (word +:+ String c EmptyString) s'
  end.

Definition split (s : string) : list string := split_from "" s.

Definition char_count (notes_input : string) : Z := len notes_input.

Definition word_count (notes_input : string) : Z :=
  Z.of_nat (length (split notes_input)).

Definition notes_caption (notes_input : string) : string :=
  "Characters: " +:+ str_of_int (char_count notes_input)
  +:+ " | Words: " +:+ str_of_int (word_count notes_input).

(** Some character of [s] is white space. *)
Fixpoint any_space (s : string) : bool :=
  match s with
  | EmptyString => false
  | String c s' => isspace c || any_space s'
  end.

(** *** Sessions *)

(** The session stores a browser session can be in: the store after the
    first pass of a fresh session, and the store after any further pass,
    with or without a click, whatever the widgets hold and the model does. *)
Inductive reachable : gmap string pyval → Prop :=
| reachable_first model w :
    reachable (store (script model w None ∅))
| reachable_pass model w s :
    reachable s → reachable (store (script model w None s))
| reachable_click model w b w' s :
    reachable s → reachable (store (click model w b w' s)).

(** The slots that hold text. *)
Definition text_slots : list string :=
  ["explain_input"; "explain_output"; "summarize_input"; "summarize_output";
   "quiz_topic_input"; "quiz_flashcard_output"].

(** Every text slot that exists holds a [str], and [uploaded_file], when
    it exists, holds [None] or a file. *)
Definition well_typed (s : gmap string pyval) : Prop :=
  (∀ k v, k ∈ text_slots → s !! k = Some v → ∃ t, v = PStr t)
  ∧ (∀ v, s !! "uploaded_file" = Some v → v = PNone ∨ ∃ f, v = PFile f).

(** The output-area events of a list, in order. *)
Definition renderings (l : list ui_event) : list ui_event :=
  List.filter is_rendering l.

(** The three output areas of a store, top to bottom. *)
Definition page_of (s : gmap string pyval) : list ui_event :=
  output_area Explain s ++ output_area Summarize s ++ output_area Quiz s.

(** The effect of a block on the session: it leaves alone what is outside
    [keys], keeps the types of the slots, and draws no output area. *)
Definition confined {A} (keys : list string) (s : gmap string pyval)
    (o : outcome A) : Prop :=
  (∀ k, k ∉ keys → store o !! k = s !! k)
  ∧ (well_typed s → well_typed (store o))
  ∧ renderings (shown o) = [].

(** A document the parser rejects. *)
Definition corrupt_pdf : UploadedFile :=
  {| PdfReader := Raise (Exn "EOF marker not found") |}.

Definition corrupt_pdf_page : widgets :=
  {| concept_input := ""; notes_input := "my notes";
     uploaded_file := Some corrupt_pdf; quiz_topic_input := "" |}.

(** ** Running the page monad *)

Lemma display_ai_output_run v label key_prefix s :
  display_ai_output v label key_prefix s
  = Outcome (inl tt) s (rendering v label key_prefix).
Proof. unfold display_ai_output, rendering. by destruct (bool_of v). Qed.

Lemma pressed_same b : pressed (Some b) b = true.
Proof. by apply bool_decide_eq_true_2. Qed.

Lemma pressed_other b b' : b ≠ b' → pressed (Some b) b' = false.
Proof. intros. apply bool_decide_eq_false_2. congruence. Qed.

Lemma slot_lookup (s : gmap string pyval) k v : s !! k = Some v → slot s k = v.
Proof. unfold slot. by intros ->. Qed.

Lemma initialised_lookup (s : gmap string pyval) k :
  initialised s → k ∈ slots → is_Some (s !! k).
Proof. unfold initialised. rewrite Forall_forall. auto. Qed.

Lemma initialised_mono (s s' : gmap string pyval) :
  (∀ k, is_Some (s !! k) → is_Some (s' !! k)) →
  initialised s → initialised s'.
Proof.
  unfold initialised. intros H Hs. eapply Forall_impl; [exact Hs | auto].
Qed.

Lemma initialised_insert (s : gmap string pyval) k v :
  initialised s → initialised (<[k := v]> s).
Proof.
  apply initialised_mono. intros j Hj.
  rewrite lookup_insert_is_Some'. by right.
Qed.

(** Unfold the monad and evaluate, resolving look-ups from the context. *)
Ltac page_unfold :=
  unfold setdefault, has_attr, get_attr, set_attr, emit, call_model,
    experimental_rerun, when, mbind, mret, page_mbind, page_mret,
    page_bind, page_ret.

Ltac page_simpl :=
  repeat (first
    [ progress cbn -[lookup insert String.append rendering slice_to len
                     truncation_warning explain_prompt summarize_prompt
                     quiz_prompt flashcards_prompt strip Z.gtb]
    | rewrite lookup_insert_eq
    | rewrite lookup_insert_ne by discriminate
    | rewrite display_ai_output_run
    | match goal with
      | H : ?s !! ?k = Some _ |- context [?s !! ?k] => rewrite H
      | H : ?h = Outcome _ _ _ |- context [?h] => rewrite H
      end ]).

Ltac initialised_destruct H :=
  unfold initialised, slots in H; cbn in H;
  repeat (apply Forall_cons in H as [[? ?] H]).

Section Passes.

Variable model : string → result string.

(** *** The handlers always return, and create no gap in the store *)

Ltac grown :=
  intros ? ?; rewrite ?lookup_insert_is_Some'; auto.

Lemma explain_button_run c s :
  ∃ s' l, explain_button model c s = Outcome (inl tt) s' l
          ∧ ∀ k, is_Some (s !! k) → is_Some (s' !! k).
Proof.
  unfold explain_button. destruct (truthy c);
    [page_unfold; page_simpl;
     match goal with |- context [model ?p] => destruct (model p) end|];
    page_unfold; page_simpl;
    eexists _, _; (split; [reflexivity | grown]).
Qed.

Lemma quiz_button_run c s :
  ∃ s' l, quiz_button model c s = Outcome (inl tt) s' l
          ∧ ∀ k, is_Some (s !! k) → is_Some (s' !! k).
Proof.
  unfold quiz_button. destruct (truthy c);
    [page_unfold; page_simpl;
     match goal with |- context [model ?p] => destruct (model p) end|];
    page_unfold; page_simpl;
    eexists _, _; (split; [reflexivity | grown]).
Qed.

Lemma flashcards_button_run c s :
  ∃ s' l, flashcards_button model c s = Outcome (inl tt) s' l
          ∧ ∀ k, is_Some (s !! k) → is_Some (s' !! k).
Proof.
  unfold flashcards_button. destruct (truthy c);
    [page_unfold; page_simpl;
     match goal with |- context [model ?p] => destruct (model p) end|];
    page_unfold; page_simpl;
    eexists _, _; (split; [reflexivity | grown]).
Qed.

Lemma summarize_collect_run w s :
  ∃ c s' l, summarize_collect w s = Outcome (inl c) s' l
            ∧ ∀ k, is_Some (s !! k) → is_Some (s' !! k).
Proof.
  unfold summarize_collect.
  destruct (uploaded_file w) as [f|];
    [destruct (extract_text_from_pdf f);
       [destruct (truthy (strip _))|]
    | destruct (truthy (notes_input w))];
    page_unfold; page_simpl;
    eexists _, _, _; (split; [reflexivity | grown]).
Qed.

Lemma summarize_send_run c s :
  ∃ s' l, summarize_send model c s = Outcome (inl tt) s' l
          ∧ ∀ k, is_Some (s !! k) → is_Some (s' !! k).
Proof.
  unfold summarize_send.
  destruct (truthy c);
    [destruct (len c >? MAX_CHARS_FOR_GEMINI)%Z;
       page_unfold; page_simpl;
       match goal with |- context [model ?p] => destruct (model p) end|];
    page_unfold; page_simpl;
    eexists _, _; (split; [reflexivity | grown]).
Qed.

Lemma summarize_button_run w s :
  ∃ s' l, summarize_button model w s = Outcome (inl tt) s' l
          ∧ ∀ k, is_Some (s !! k) → is_Some (s' !! k).
Proof.
  unfold summarize_button.
  destruct (summarize_collect_run w s) as (c & s1 & l1 & E1 & G1).
  destruct (summarize_send_run c s1) as (s2 & l2 & E2 & G2).
  page_unfold. rewrite E1, E2. eexists _, _. split; [reflexivity | auto].
Qed.

Lemma handler_run b w s :
  is_action b = true →
  ∃ s' l, handler model b w s = Outcome (inl tt) s' l
          ∧ ∀ k, is_Some (s !! k) → is_Some (s' !! k).
Proof.
  destruct b; try discriminate; intros _; cbn [handler].
  - apply explain_button_run.
  - apply summarize_button_run.
  - apply quiz_button_run.
  - apply flashcards_button_run.
Qed.

(** *** The three sections of the script *)

Ltac section_eval :=
  repeat match goal with H : is_Some _ |- _ => destruct H end;
  unfold output_area;
  repeat match goal with
         | H : ?s !! ?k = Some _ |- context [slot ?s ?k] =>
             rewrite (slot_lookup s k _ H)
         end;
  rewrite ?pressed_same, ?pressed_other by discriminate;
  page_unfold; page_simpl.

Lemma explain_section_idle w clicked s :
  is_Some (s !! "explain_input") → is_Some (s !! "explain_output") →
  pressed clicked ExplainConcept = false →
  pressed clicked ClearExplain = false →
  explain_section model w clicked s
  = Outcome (inl tt) s (output_area Explain s).
Proof.
  intros ? ? H1 H2. unfold explain_section. rewrite H1, H2.
  by section_eval.
Qed.

Lemma explain_section_pressed w s s' l :
  is_Some (s !! "explain_input") → is_Some (s !! "explain_output") →
  explain_button model (concept_input w) s = Outcome (inl tt) s' l →
  is_Some (s' !! "explain_output") →
  explain_section model w (Some ExplainConcept) s
  = Outcome (inl tt) s' (l ++ output_area Explain s').
Proof. intros. unfold explain_section. by section_eval. Qed.

Lemma explain_section_clear w s :
  is_Some (s !! "explain_input") → is_Some (s !! "explain_output") →
  explain_section model w (Some ClearExplain) s
  = Outcome (inr RerunException)
      (<["explain_output" := PStr ""]> (<["explain_input" := PStr ""]> s)) [].
Proof. intros. unfold explain_section, clear_explain. by section_eval. Qed.

Lemma summarize_section_idle w clicked s :
  is_Some (s !! "summarize_input") → is_Some (s !! "summarize_output") →
  is_Some (s !! "uploaded_file") →
  pressed clicked ClearSummarize = false →
  pressed clicked SummarizeContent = false →
  summarize_section model w clicked s
  = Outcome (inl tt) s (output_area Summarize s).
Proof.
  intros ? ? ? H1 H2. unfold summarize_section. rewrite H1, H2.
  by section_eval.
Qed.

Lemma summarize_section_pressed w s s' l :
  is_Some (s !! "summarize_input") → is_Some (s !! "summarize_output") →
  is_Some (s !! "uploaded_file") →
  summarize_button model w s = Outcome (inl tt) s' l →
  is_Some (s' !! "summarize_output") →
  summarize_section model w (Some SummarizeContent) s
  = Outcome (inl tt) s' (l ++ output_area Summarize s').
Proof. intros. unfold summarize_section. by section_eval. Qed.

Lemma summarize_section_clear w s :
  is_Some (s !! "summarize_input") → is_Some (s !! "summarize_output") →
  is_Some (s !! "uploaded_file") →
  summarize_section model w (Some ClearSummarize) s
  = Outcome (inr RerunException)
      (<["uploaded_file" := PNone]>
         (<["summarize_output" := PStr ""]>
            (<["summarize_input" := PStr ""]> s))) [].
Proof. intros. unfold summarize_section, clear_summarize. by section_eval. Qed.

Lemma quiz_section_idle w clicked s :
  is_Some (s !! "quiz_topic_input") → is_Some (s !! "quiz_flashcard_output") →
  pressed clicked GenerateQuiz = false →
  pressed clicked GenerateFlashcards = false →
  pressed clicked ClearQuiz = false →
  quiz_section model w clicked s
  = Outcome (inl tt) s (output_area Quiz s).
Proof.
  intros ? ? H1 H2 H3. unfold quiz_section. rewrite H1, H2, H3.
  by section_eval.
Qed.

Lemma quiz_section_quiz w s s' l :
  is_Some (s !! "quiz_topic_input") → is_Some (s !! "quiz_flashcard_output") →
  quiz_button model (quiz_topic_input w) s = Outcome (inl tt) s' l →
  is_Some (s' !! "quiz_flashcard_output") →
  quiz_section model w (Some GenerateQuiz) s
  = Outcome (inl tt) s' (l ++ output_area Quiz s').
Proof. intros. unfold quiz_section. by section_eval. Qed.

Lemma quiz_section_flashcards w s s' l :
  is_Some (s !! "quiz_topic_input") → is_Some (s !! "quiz_flashcard_output") →
  flashcards_button model (quiz_topic_input w) s = Outcome (inl tt) s' l →
  is_Some (s' !! "quiz_flashcard_output") →
  quiz_section model w (Some GenerateFlashcards) s
  = Outcome (inl tt) s' (l ++ output_area Quiz s').
Proof. intros. unfold quiz_section. by section_eval. Qed.

Lemma quiz_section_clear w s :
  is_Some (s !! "quiz_topic_input") → is_Some (s !! "quiz_flashcard_output") →
  quiz_section model w (Some ClearQuiz) s
  = Outcome (inr RerunException)
      (<["quiz_flashcard_output" := PStr ""]>
         (<["quiz_topic_input" := PStr ""]> s)) [].
Proof. intros. unfold quiz_section, clear_quiz. by section_eval. Qed.

(** *** Whole passes *)

Ltac present :=
  solve [ eauto
        | rewrite ?lookup_insert_is_Some'; eauto
        | match goal with
          | G : ∀ k, is_Some (_ !! k) → is_Some (?s' !! k) |- is_Some (?s' !! _) =>
              apply G; eauto
          end ].

Lemma script_idle w s :
  initialised s →
  script model w None s
  = Outcome (inl tt) s
      (output_area Explain s ++ output_area Summarize s ++ output_area Quiz s).
Proof.
  intros Hs. initialised_destruct Hs. unfold script. page_unfold.
  rewrite explain_section_idle by (present || done).
  rewrite summarize_section_idle by (present || done).
  rewrite quiz_section_idle by (present || done).
  done.
Qed.

Lemma script_action w b s s' l :
  initialised s → is_action b = true →
  handler model b w s = Outcome (inl tt) s' l →
  (∀ k, is_Some (s !! k) → is_Some (s' !! k)) →
  script model w (Some b) s
  = Outcome (inl tt) s' (pass_events (feature_of b) s l s').
Proof.
  intros Hs Hb Hh G. initialised_destruct Hs.
  destruct b; try discriminate; cbn [handler] in Hh;
    unfold script; page_unfold; cbn [feature_of pass_events].
  - rewrite (explain_section_pressed w s s' l) by (present || done).
    rewrite summarize_section_idle by (present || done).
    rewrite quiz_section_idle by (present || done).
    by rewrite <- ?app_assoc.
  - rewrite explain_section_idle by (present || done).
    rewrite (summarize_section_pressed w s s' l) by (present || done).
    rewrite quiz_section_idle by (present || done).
    by rewrite <- ?app_assoc.
  - rewrite explain_section_idle by (present || done).
    rewrite summarize_section_idle by (present || done).
    rewrite (quiz_section_quiz w s s' l) by (present || done).
    by rewrite <- ?app_assoc.
  - rewrite explain_section_idle by (present || done).
    rewrite summarize_section_idle by (present || done).
    rewrite (quiz_section_flashcards w s s' l) by (present || done).
    by rewrite <- ?app_assoc.
Qed.

(** A click on an action button is one complete pass: the handler's
    store, the handler's events among the three output areas. *)
Lemma click_action w b w' s s' l :
  initialised s → is_action b = true →
  handler model b w s = Outcome (inl tt) s' l →
  (∀ k, is_Some (s !! k) → is_Some (s' !! k)) →
  click model w b w' s
  = Outcome (inl tt) s' (pass_events (feature_of b) s l s').
Proof.
  intros. unfold click. by erewrite script_action.
Qed.

Lemma initialised_cleared b s : initialised s → initialised (cleared b s).
Proof. destruct b; cbn; auto using initialised_insert. Qed.

Lemma script_clear w b s :
  initialised s → is_clear b = true →
  script model w (Some b) s
  = Outcome (inr RerunException) (cleared b s) (drawn_before b s).
Proof.
  intros Hs Hb. initialised_destruct Hs.
  destruct b; try discriminate; unfold script; page_unfold;
    cbn [cleared drawn_before].
  - by rewrite explain_section_clear by present.
  - rewrite explain_section_idle by (present || done).
    rewrite summarize_section_clear by present.
    by rewrite app_nil_r.
  - rewrite explain_section_idle by (present || done).
    rewrite summarize_section_idle by (present || done).
    rewrite quiz_section_clear by present.
    by rewrite app_nil_r.
Qed.

(** A click on a Clear button: the aborted pass, then a complete pass
    on the cleared store. *)
Lemma click_clear w b w' s :
  initialised s → is_clear b = true →
  click model w b w' s
  = Outcome (inl tt) (cleared b s)
      (drawn_before b s
       ++ output_area Explain (cleared b s)
       ++ output_area Summarize (cleared b s)
       ++ output_area Quiz (cleared b s)).
Proof.
  intros Hs Hb. unfold click. rewrite script_clear by done. cbn.
  by rewrite script_idle by by apply initialised_cleared.
Qed.

End Passes.

(** ** Events of a pass *)

Lemma prompts_app l1 l2 : prompts (l1 ++ l2) = prompts l1 ++ prompts l2.
Proof.
  induction l1 as [|e l1 IH]; [done|].
  destruct e; cbn; by rewrite ?IH.
Qed.

Lemma elem_of_prompts p l : generate_content p ∈ l ↔ p ∈ prompts l.
Proof.
  induction l as [|e l IH]; [by rewrite !elem_of_nil|].
  rewrite elem_of_cons, IH.
  destruct e; cbn [prompts]; rewrite ?elem_of_cons;
    (split; [intros [?|?]; [simplify_eq; auto | auto] |]);
    try (intros [->|?]; auto); auto.
Qed.

Lemma notices_app l1 l2 : notices (l1 ++ l2) = notices l1 ++ notices l2.
Proof. apply List.filter_app. Qed.

Lemma prompts_rendering v label key_prefix :
  prompts (rendering v label key_prefix) = [].
Proof. unfold rendering. by destruct (bool_of v). Qed.

Lemma notices_rendering v label key_prefix :
  notices (rendering v label key_prefix) = [].
Proof. unfold rendering. by destruct (bool_of v). Qed.

Lemma prompts_output_area f s : prompts (output_area f s) = [].
Proof. destruct f; apply prompts_rendering. Qed.

Lemma notices_output_area f s : notices (output_area f s) = [].
Proof. destruct f; apply notices_rendering. Qed.

Lemma prompts_pass_events f s l s' :
  prompts (pass_events f s l s') = prompts l.
Proof.
  destruct f; cbn [pass_events]; rewrite !prompts_app, !prompts_output_area;
    by rewrite ?app_nil_r.
Qed.

Lemma notices_pass_events f s l s' :
  notices (pass_events f s l s') = notices l.
Proof.
  destruct f; cbn [pass_events]; rewrite !notices_app, !notices_output_area;
    by rewrite ?app_nil_r.
Qed.

Lemma elem_of_rendering e v label key_prefix :
  e ∈ rendering v label key_prefix → is_rendering e = true.
Proof.
  unfold rendering. destruct (bool_of v); intros H;
    repeat (apply elem_of_cons in H as [-> | H]; [done|]);
    by apply elem_of_nil in H.
Qed.

Lemma elem_of_output_area e f s :
  e ∈ output_area f s → is_rendering e = true.
Proof. destruct f; apply elem_of_rendering. Qed.

(** A message is on the page exactly when the handler showed it. *)
Lemma notice_in_pass_events e f s l s' :
  is_rendering e = false →
  e ∈ pass_events f s l s' ↔ e ∈ l.
Proof.
  intros He. split.
  - destruct f; cbn [pass_events]; rewrite !elem_of_app; intros Hin;
      decompose [or] Hin; try done;
      match goal with
      | H : _ ∈ output_area _ _ |- _ =>
          apply elem_of_output_area in H; congruence
      end.
  - destruct f; cbn [pass_events]; rewrite !elem_of_app; auto.
Qed.

Lemma first_render_initialised : initialised first_render.
Proof. apply (bool_decide_unpack _). by vm_compute. Qed.

(** The outcome of a click on an action button, from its handler's. *)
Lemma click_action_outcome model w b w' s :
  initialised s → is_action b = true →
  returned (click model w b w' s) = inl tt
  ∧ store (click model w b w' s) = store (handler model b w s)
  ∧ shown (click model w b w' s)
    = pass_events (feature_of b) s (shown (handler model b w s))
        (store (handler model b w s)).
Proof.
  intros Hs Hb.
  destruct (handler_run model b w s Hb) as (s' & l & E & G).
  rewrite (click_action model w b w' s s' l) by done.
  by rewrite E.
Qed.

(** ** Missing input *)

Lemma handler_no_input model b w s :
  no_input b w →
  handler model b w s
  = Outcome (inl tt) (<[output_slot (feature_of b) := PStr ""]> s)
      [st_warning (empty_input_warning b)].
Proof.
  destruct b; cbn [no_input handler]; intros H; try done.
  - unfold explain_button. rewrite H. page_unfold. by page_simpl.
  - destruct H as [Hf Hn].
    unfold summarize_button, summarize_collect, summarize_send.
    rewrite Hf, Hn. page_unfold. by page_simpl.
  - unfold quiz_button. rewrite H. page_unfold. by page_simpl.
  - unfold flashcards_button. rewrite H. page_unfold. by page_simpl.
Qed.

Lemma no_input_action b w : no_input b w → is_action b = true.
Proof. by destruct b. Qed.

(** C2, as amended.  When the required input of an action button is empty
    (for the summary: empty notes box and no uploaded file), a click sends
    nothing to the model, the only message it shows is the warning, and the
    only change of the session is the feature's output slot, set to the empty
    text. *)
Theorem empty_input_only_warns model w w' s b :
  initialised s → no_input b w →
  prompts (shown (click model w b w' s)) = []
  ∧ notices (shown (click model w b w' s))
    = [st_warning (empty_input_warning b)]
  ∧ store (click model w b w' s)
    = <[output_slot (feature_of b) := PStr ""]> s.
Proof.
  intros Hs Hb.
  destruct (click_action_outcome model w b w' s Hs (no_input_action b w Hb))
    as (_ & Hst & Hsh).
  rewrite Hst, Hsh, prompts_pass_events, notices_pass_events.
  by rewrite (handler_no_input model b w s Hb).
Qed.

Lemma empty_input_only_warns_witness :
  prompts (shown (click echo blank_page GenerateQuiz blank_page first_render)) = []
  ∧ notices (shown (click echo blank_page GenerateQuiz blank_page first_render))
    = [st_warning "Please enter a topic for the quiz."]
  ∧ store (click echo blank_page GenerateQuiz blank_page first_render)
    = <["quiz_flashcard_output" := PStr ""]> first_render.
Proof.
  apply (empty_input_only_warns echo blank_page blank_page first_render
           GenerateQuiz).
  - apply (bool_decide_unpack _). by vm_compute.
  - reflexivity.
Defined.

(** C2, as stated, fails on white space: a concept made of one blank is
    not empty, so it is sent to the model. *)
Lemma whitespace_input_is_sent :
  let w := {| concept_input := " "; notes_input := ""; uploaded_file := None;
              quiz_topic_input := "" |} in
  whitespace_only (concept_input w)
  ∧ prompts (shown (click echo w ExplainConcept w first_render))
    = [explain_prompt " "]
  ∧ notices (shown (click echo w ExplainConcept w first_render))
    = [st_spinner "AI is thinking..."; generate_content (explain_prompt " ")].
Proof. by vm_compute. Qed.

(** C3, as amended.  When the required input of an action button is empty,
    the click sets the feature's output slot to the empty text, shows the
    warning message on the page, and performs no network call. *)
Theorem empty_input_clears_output model w w' s b :
  initialised s → no_input b w →
  store (click model w b w' s) !! output_slot (feature_of b) = Some (PStr "")
  ∧ st_warning (empty_input_warning b) ∈ shown (click model w b w' s)
  ∧ prompts (shown (click model w b w' s)) = [].
Proof.
  intros Hs Hb.
  destruct (click_action_outcome model w b w' s Hs (no_input_action b w Hb))
    as (_ & Hst & Hsh).
  rewrite Hst, Hsh, prompts_pass_events, notice_in_pass_events by done.
  rewrite (handler_no_input model b w s Hb). cbn [store shown].
  rewrite lookup_insert_eq. split_and!; [done | apply list_elem_of_here | done].
Qed.

Lemma empty_input_clears_output_witness :
  store (click echo blank_page ExplainConcept blank_page first_render)
    !! "explain_output" = Some (PStr "")
  ∧ st_warning "Please enter a concept to explain."
    ∈ shown (click echo blank_page ExplainConcept blank_page first_render)
  ∧ prompts (shown (click echo blank_page ExplainConcept blank_page first_render))
    = [].
Proof.
  apply (empty_input_clears_output echo blank_page blank_page first_render
           ExplainConcept).
  - apply (bool_decide_unpack _). by vm_compute.
  - reflexivity.
Defined.

(** C3, as stated, fails: after a click on Explain Concept with an empty
    concept the output slot holds the empty text, which is none of the
    warnings shown. *)
Lemma output_slot_is_not_the_warning :
  let o := click echo blank_page ExplainConcept blank_page first_render in
  no_input ExplainConcept blank_page
  ∧ store o !! "explain_output" = Some (PStr "")
  ∧ ¬ ∃ m, st_warning m ∈ shown o ∧ store o !! "explain_output" = Some (PStr m).
Proof.
  split_and!; [done | by vm_compute |].
  intros (m & Hm & Hslot). vm_compute in Hslot.
  injection Hslot as <-. vm_compute in Hm.
  repeat (apply elem_of_cons in Hm as [Hm | Hm]; [discriminate|]).
  by apply elem_of_nil in Hm.
Qed.

(** ** Clear *)

(** C4.  On a session whose slots exist, a click on a feature's Clear button
    ends in a complete pass, leaves that feature's input and output slots
    holding the empty text (and, for the summary, its uploaded-file slot
    holding [None]), and leaves every other attribute of the session as it
    was. *)
Theorem clear_resets_own_feature model w w' s b :
  initialised s → is_clear b = true →
  returned (click model w b w' s) = inl tt
  ∧ store (click model w b w' s) !! input_slot (feature_of b) = Some (PStr "")
  ∧ store (click model w b w' s) !! output_slot (feature_of b) = Some (PStr "")
  ∧ (feature_of b = Summarize →
     store (click model w b w' s) !! "uploaded_file" = Some PNone)
  ∧ ∀ k, k ∉ own_slots (feature_of b) →
         store (click model w b w' s) !! k = s !! k.
Proof.
  intros Hs Hb. rewrite click_clear by done. cbn [returned store].
  destruct b; try discriminate; cbn [cleared feature_of input_slot output_slot];
    (split_and!;
     [ done
     | by rewrite ?lookup_insert_ne by discriminate; rewrite lookup_insert_eq
     | by rewrite ?lookup_insert_ne by discriminate; rewrite lookup_insert_eq
     | try discriminate
     | intros k Hk; cbn in Hk;
       rewrite !not_elem_of_cons in Hk; destruct_and!;
       rewrite !lookup_insert_ne by congruence; done ]).
  intros _. by rewrite lookup_insert_eq.
Qed.

Lemma clear_resets_own_feature_witness :
  returned (click echo blank_page ClearExplain blank_page answered_session)
  = inl tt
  ∧ store (click echo blank_page ClearExplain blank_page answered_session)
      !! "explain_input" = Some (PStr "")
  ∧ store (click echo blank_page ClearExplain blank_page answered_session)
      !! "explain_output" = Some (PStr "")
  ∧ (Explain = Summarize →
     store (click echo blank_page ClearExplain blank_page answered_session)
       !! "uploaded_file" = Some PNone)
  ∧ ∀ k, k ∉ ["explain_input"; "explain_output"] →
         store (click echo blank_page ClearExplain blank_page answered_session)
           !! k = answered_session !! k.
Proof.
  apply (clear_resets_own_feature echo blank_page blank_page answered_session
           ClearExplain).
  - apply (bool_decide_unpack _). by vm_compute.
  - reflexivity.
Defined.

(** ** Strings *)

Lemma append_assoc (a b c : string) : (a +:+ b) +:+ c = a +:+ b +:+ c.
Proof.
  induction a as [|x a IH]; [done|].
  change (String x ((a +:+ b) +:+ c) = String x (a +:+ b +:+ c)).
  by f_equal.
Qed.

Lemma append_nil_r (a : string) : a +:+ "" = a.
Proof.
  induction a as [|x a IH]; [done|].
  change (String x (a +:+ "") = String x a). by f_equal.
Qed.

Lemma truthy_true s : truthy s = true ↔ s ≠ "".
Proof. by destruct s. Qed.

Lemma truthy_false s : truthy s = false ↔ s = "".
Proof. by destruct s. Qed.

Lemma lstrip_all_space s : all_space s = true → lstrip s = "".
Proof.
  induction s as [|c s IH]; cbn; [done|].
  destruct (isspace c); [auto | done].
Qed.

Lemma strip_whitespace_only s : whitespace_only s → strip s = "".
Proof. unfold whitespace_only, strip. by intros ->%lstrip_all_space. Qed.

Lemma mentions_intro pre sub post : mentions (pre +:+ sub +:+ post) sub.
Proof. by exists pre, post. Qed.

Lemma mentions_suffix pre sub : mentions (pre +:+ sub) sub.
Proof. exists pre, "". by rewrite append_nil_r. Qed.

(** ** The content extractor *)

Lemma extract_pages_ok acc pages texts :
  map extract_text pages = map Ok texts →
  extract_pages acc pages = Ok (acc +:+ pages_each_ended_by_newline texts).
Proof.
  revert acc texts. induction pages as [|page pages IH]; intros acc texts H.
  - destruct texts; [|done]. cbn. by rewrite append_nil_r.
  - destruct texts as [|t texts]; [done|]. cbn in H.
    injection H as Ht Hrest. cbn. rewrite Ht.
    rewrite (IH _ texts Hrest). by rewrite !append_assoc.
Qed.

Lemma joined_then_newline texts :
  texts ≠ [] →
  pages_each_ended_by_newline texts = pages_joined_by_newline texts +:+ NL.
Proof.
  induction texts as [|t texts IH]; [done|]. intros _.
  destruct texts as [|t' texts]; [done|].
  change (pages_each_ended_by_newline (t :: t' :: texts))
    with (t +:+ NL +:+ pages_each_ended_by_newline (t' :: texts)).
  change (pages_joined_by_newline (t :: t' :: texts))
    with (t +:+ NL +:+ pages_joined_by_newline (t' :: texts)).
  rewrite IH by done. by rewrite !append_assoc.
Qed.

(** C6, as amended.  For a document that parses and whose pages yield the
    texts [texts], the extractor returns each page's text followed by a
    single newline, in page order: the texts joined by single newlines, and
    one more newline after the last page. *)
Theorem extract_text_from_pdf_pages f pages texts :
  PdfReader f = Ok pages →
  map extract_text pages = map Ok texts →
  extract_text_from_pdf f = Ok (pages_each_ended_by_newline texts)
  ∧ (texts ≠ [] →
     extract_text_from_pdf f = Ok (pages_joined_by_newline texts +:+ NL)).
Proof.
  intros Hf Hp. unfold extract_text_from_pdf. rewrite Hf.
  rewrite (extract_pages_ok "" pages texts Hp). split; [done|].
  intros Hne. by rewrite joined_then_newline.
Qed.

Lemma extract_text_from_pdf_pages_witness :
  extract_text_from_pdf (pdf_of_pages ["Cells"; "Mitosis"])
  = Ok (pages_each_ended_by_newline ["Cells"; "Mitosis"])
  ∧ (["Cells"; "Mitosis"] ≠ [] →
     extract_text_from_pdf (pdf_of_pages ["Cells"; "Mitosis"])
     = Ok (pages_joined_by_newline ["Cells"; "Mitosis"] +:+ NL)).
Proof.
  apply (extract_text_from_pdf_pages (pdf_of_pages ["Cells"; "Mitosis"])
           (map (λ t, {| extract_text := Ok t |}) ["Cells"; "Mitosis"])
           ["Cells"; "Mitosis"]).
  - reflexivity.
  - reflexivity.
Defined.

(** C6, as stated, fails: the result is not the join of the page texts, a
    newline follows the last page too. *)
Lemma extractor_ends_with_newline :
  extract_text_from_pdf (pdf_of_pages ["Cells"; "Mitosis"])
  = Ok ("Cells" +:+ NL +:+ "Mitosis" +:+ NL)
  ∧ pages_joined_by_newline ["Cells"; "Mitosis"] = "Cells" +:+ NL +:+ "Mitosis"
  ∧ extract_text_from_pdf (pdf_of_pages ["Cells"; "Mitosis"])
    ≠ Ok (pages_joined_by_newline ["Cells"; "Mitosis"]).
Proof. by vm_compute. Qed.

(** ** The summary handler, case by case *)

Lemma summarize_collect_typed w s :
  uploaded_file w = None →
  summarize_collect w s
  = if truthy (notes_input w)
    then Outcome (inl (notes_input w))
           (<["summarize_input" := PStr (notes_input w)]> s) []
    else Outcome (inl "") s [].
Proof.
  intros Hf. unfold summarize_collect. rewrite Hf.
  destruct (truthy (notes_input w)); page_unfold; by page_simpl.
Qed.

Lemma summarize_collect_pdf w s f t :
  uploaded_file w = Some f → extract_text_from_pdf f = Ok t →
  summarize_collect w s
  = if truthy (strip t)
    then Outcome (inl t) (<["uploaded_file" := PFile f]> s)
           [st_write "Processing PDF..."]
    else Outcome (inl "")
           (<["summarize_output" :=
                PStr "Error: Could not extract readable text from PDF."]>
              (<["uploaded_file" := PFile f]> s))
           [st_write "Processing PDF..."; st_warning unreadable_pdf_warning].
Proof.
  intros Hf Ht. unfold summarize_collect. rewrite Hf, Ht.
  destruct (truthy (strip t)); page_unfold; by page_simpl.
Qed.

Lemma summarize_collect_bad_pdf w s f e :
  uploaded_file w = Some f → extract_text_from_pdf f = Raise e →
  summarize_collect w s
  = Outcome (inl "")
      (<["summarize_output" := PStr ("Error reading PDF: " +:+ str e)]> s)
      [st_write "Processing PDF...";
       st_error ("Error reading PDF: " +:+ str e
                 +:+ ". Please ensure it's a valid PDF or try pasting text.")].
Proof.
  intros Hf Ht. unfold summarize_collect. rewrite Hf, Ht.
  page_unfold; by page_simpl.
Qed.

Lemma summarize_send_empty model s :
  summarize_send model "" s
  = Outcome (inl tt) (<["summarize_output" := PStr ""]> s)
      [st_warning (empty_input_warning SummarizeContent)].
Proof. unfold summarize_send. page_unfold. by page_simpl. Qed.

Lemma summarize_send_short model c s :
  c ≠ "" → len c ≤ MAX_CHARS_FOR_GEMINI →
  summarize_send model c s
  = Outcome (inl tt)
      (<["summarize_output" := PStr (reply_text (model (summarize_prompt c)))]> s)
      ([st_spinner "AI is summarizing..."; generate_content (summarize_prompt c)]
       ++ match model (summarize_prompt c) with
          | Ok _ => []
          | Raise e =>
              [st_error ("Error generating summary: " +:+ str e); st_exception e]
          end).
Proof.
  intros Hc%truthy_true Hlen. unfold summarize_send. rewrite Hc.
  replace (len c >? MAX_CHARS_FOR_GEMINI)%Z with false by lia.
  page_unfold. page_simpl.
  destruct (model (summarize_prompt c)); by page_simpl.
Qed.

Lemma summarize_send_long model c s :
  MAX_CHARS_FOR_GEMINI < len c →
  summarize_send model c s
  = Outcome (inl tt)
      (<["summarize_output" :=
           PStr (reply_text
                   (model (summarize_prompt (slice_to c MAX_CHARS_FOR_GEMINI))))]> s)
      ([st_warning (truncation_warning (len c));
        st_spinner "AI is summarizing...";
        generate_content (summarize_prompt (slice_to c MAX_CHARS_FOR_GEMINI))]
       ++ match model (summarize_prompt (slice_to c MAX_CHARS_FOR_GEMINI)) with
          | Ok _ => []
          | Raise e =>
              [st_error ("Error generating summary: " +:+ str e); st_exception e]
          end).
Proof.
  intros Hlen. unfold summarize_send.
  assert (truthy c = true) as ->.
  { destruct c; [|done]. unfold MAX_CHARS_FOR_GEMINI, len in Hlen. cbn in Hlen. lia. }
  replace (len c >? MAX_CHARS_FOR_GEMINI)%Z with true by lia.
  page_unfold. page_simpl.
  destruct (model (summarize_prompt _)); by page_simpl.
Qed.

Lemma summarize_button_compose model w s c s1 l1 :
  summarize_collect w s = Outcome (inl c) s1 l1 →
  summarize_button model w s
  = Outcome (returned (summarize_send model c s1))
      (store (summarize_send model c s1))
      (l1 ++ shown (summarize_send model c s1)).
Proof.
  intros H. unfold summarize_button. page_unfold. rewrite H.
  by destruct (summarize_send model c s1).
Qed.

(** The first half asks nothing of the model, and warns only when it
    hands over no content. *)
Lemma summarize_collect_events w s :
  prompts (shown (summarize_collect w s)) = []
  ∧ (returned (summarize_collect w s) ≠ inl "" →
     ∀ m, st_warning m ∉ shown (summarize_collect w s)).
Proof.
  destruct (uploaded_file w) as [f|] eqn:Hf.
  - destruct (extract_text_from_pdf f) as [t|e] eqn:Ht.
    + rewrite (summarize_collect_pdf w s f t Hf Ht).
      destruct (truthy (strip t)); cbn; (split; [done|]); [|done].
      intros _ m Hm. apply list_elem_of_singleton in Hm. discriminate.
    + rewrite (summarize_collect_bad_pdf w s f e Hf Ht). cbn. by split.
  - rewrite (summarize_collect_typed w s Hf).
    destruct (truthy (notes_input w)); cbn; (split; [done|]); [|done].
    intros _ m Hm. by apply elem_of_nil in Hm.
Qed.

Lemma click_summarize model w w' s c s1 l1 :
  initialised s →
  summarize_collect w s = Outcome (inl c) s1 l1 →
  store (click model w SummarizeContent w' s)
  = store (summarize_send model c s1)
  ∧ shown (click model w SummarizeContent w' s)
    = pass_events Summarize s (l1 ++ shown (summarize_send model c s1))
        (store (summarize_send model c s1)).
Proof.
  intros Hs Hc.
  destruct (click_action_outcome model w SummarizeContent w' s Hs eq_refl)
    as (_ & Hst & Hsh).
  rewrite Hst, Hsh. cbn [handler feature_of].
  by rewrite (summarize_button_compose model w s c s1 l1 Hc).
Qed.

(** ** Truncation *)

Lemma take_prefix n s : ∃ rest, s = take n s +:+ rest.
Proof.
  revert s. induction n as [|n IH]; intros s; [by exists s|].
  destruct s as [|c s]; [by exists ""|].
  destruct (IH s) as [rest Hrest]. exists rest.
  change (String c s = String c (take n s +:+ rest)). by f_equal.
Qed.

Lemma length_take n s :
  String.length (take n s) = Nat.min n (String.length s).
Proof.
  revert s. induction n as [|n IH]; intros s; [done|].
  destruct s as [|c s]; [done|]. cbn. by rewrite IH.
Qed.

Lemma slice_to_nonneg s n : 0 ≤ n → slice_to s n = take (Z.to_nat n) s.
Proof.
  intros Hn. unfold slice_to.
  by replace (n <? 0)%Z with false by lia.
Qed.

Lemma len_slice_to s n : 0 ≤ n ≤ len s → len (slice_to s n) = n.
Proof.
  intros Hn. rewrite slice_to_nonneg by lia.
  unfold len in *. rewrite length_take. lia.
Qed.

Lemma truncation_warning_cites_threshold n :
  mentions (truncation_warning n) "50000".
Proof.
  unfold truncation_warning.
  change (str_of_int MAX_CHARS_FOR_GEMINI) with "50000".
  rewrite <- 2!append_assoc. apply mentions_intro.
Qed.

Lemma summarize_collect_source w s content :
  returned (summarize_collect w s) = inl content →
  (uploaded_file w = None → content = notes_input w)
  ∧ (∀ f, uploaded_file w = Some f →
          content = "" ∨ extract_text_from_pdf f = Ok content).
Proof.
  intros Hc. split.
  - intros Hf. rewrite (summarize_collect_typed w s Hf) in Hc.
    destruct (truthy (notes_input w)) eqn:Hn; cbn in Hc; simplify_eq; [done|].
    by apply truthy_false in Hn.
  - intros f Hf. destruct (extract_text_from_pdf f) as [t|e] eqn:Ht.
    + rewrite (summarize_collect_pdf w s f t Hf Ht) in Hc.
      destruct (truthy (strip t)); cbn in Hc; simplify_eq; auto.
    + rewrite (summarize_collect_bad_pdf w s f e Hf Ht) in Hc.
      cbn in Hc. simplify_eq. auto.
Qed.

(** C1, as amended.  Let [content] be the content a click on Summarize
    Content has chosen: the pasted notes when no file is uploaded, the text
    extracted from the uploaded PDF otherwise (or nothing, when that text is
    unusable).  When it is longer than 50,000 characters, the one prompt
    sent is the summary template followed by exactly the first 50,000
    characters of the content, and the truncation warning, which cites
    50000, is shown.  When it is not empty and has at most 50,000
    characters, the one prompt sent is the template followed by the whole
    content, and no warning is shown.  When it is empty nothing is sent and
    the empty-input warning is shown.  No content of at most 50,000
    characters is cut or gets the truncation warning. *)
Theorem summarize_truncates_long_content model w w' s content :
  initialised s →
  returned (summarize_collect w s) = inl content →
  ((uploaded_file w = None → content = notes_input w)
   ∧ (∀ f, uploaded_file w = Some f →
           content = "" ∨ extract_text_from_pdf f = Ok content))
  ∧ (50000 < len content →
     prompts (shown (click model w SummarizeContent w' s))
     = ["Summarize the following study notes concisely, highlighting the main points and key takeaways. Aim for a summary that captures the essence of the notes: "
        +:+ slice_to content 50000]
     ∧ (∃ rest, content = slice_to content 50000 +:+ rest)
     ∧ len (slice_to content 50000) = 50000
     ∧ st_warning
         ("Your input is very long (" +:+ str_of_int (len content)
      +:+ " characters). Summarizing the first 50000 characters to fit AI limits. For very long documents, consider summarizing in chunks.")
       ∈ shown (click model w SummarizeContent w' s)
     ∧ mentions
         ("Your input is very long (" +:+ str_of_int (len content)
      +:+ " characters). Summarizing the first 50000 characters to fit AI limits. For very long documents, consider summarizing in chunks.")
         "50000")
  ∧ (content ≠ "" → len content ≤ 50000 →
     prompts (shown (click model w SummarizeContent w' s))
     = ["Summarize the following study notes concisely, highlighting the main points and key takeaways. Aim for a summary that captures the essence of the notes: "
        +:+ content]
     ∧ ∀ m, st_warning m ∉ shown (click model w SummarizeContent w' s))
  ∧ (content = "" →
     prompts (shown (click model w SummarizeContent w' s)) = []
     ∧ st_warning "Please paste notes or upload a PDF document to summarize."
       ∈ shown (click model w SummarizeContent w' s))
  ∧ (len content ≤ 50000 →
     (∀ p, generate_content p ∈ shown (click model w SummarizeContent w' s) →
           p = "Summarize the following study notes concisely, highlighting the main points and key takeaways. Aim for a summary that captures the essence of the notes: "
               +:+ content)
     ∧ ∀ n, st_warning
              ("Your input is very long (" +:+ str_of_int (n)
      +:+ " characters). Summarizing the first 50000 characters to fit AI limits. For very long documents, consider summarizing in chunks.")
            ∉ shown (click model w SummarizeContent w' s)).
Proof.
  intros Hs Hc.
  assert (∀ x, "Summarize the following study notes concisely, highlighting the main points and key takeaways. Aim for a summary that captures the essence of the notes: "
               +:+ x = summarize_prompt x) as Hlit by reflexivity.
  assert (∀ n, ("Your input is very long (" +:+ str_of_int (n)
      +:+ " characters). Summarizing the first 50000 characters to fit AI limits. For very long documents, consider summarizing in chunks.")
               = truncation_warning n) as Hwarn by reflexivity.
  change 50000 with MAX_CHARS_FOR_GEMINI.
  setoid_rewrite Hlit. setoid_rewrite Hwarn. clear Hlit Hwarn.
  split; [by apply (summarize_collect_source w s)|].
  destruct (summarize_collect_events w s) as [Hp Hq].
  destruct (summarize_collect w s) as [r s1 l1] eqn:E.
  cbn [returned shown] in Hc, Hp, Hq. subst r.
  destruct (click_summarize model w w' s content s1 l1 Hs E) as [_ Hsh].
  rewrite Hsh. clear Hsh.
  setoid_rewrite elem_of_prompts.
  rewrite prompts_pass_events, prompts_app, Hp, app_nil_l.
  assert (content ≠ "" → len content ≤ MAX_CHARS_FOR_GEMINI →
          prompts (shown (summarize_send model content s1))
          = [summarize_prompt content]
          ∧ ∀ m, st_warning m
                 ∉ pass_events Summarize s
                     (l1 ++ shown (summarize_send model content s1))
                     (store (summarize_send model content s1)))
    as Hshort.
  { intros Hne Hlen. rewrite summarize_send_short by done. cbn [shown store].
    split.
    - rewrite prompts_app. cbn [prompts]. by destruct (model _).
    - intros m Hm. apply notice_in_pass_events in Hm; [|done].
      apply elem_of_app in Hm as [Hm | Hm].
      + apply (Hq ltac:(congruence) m Hm).
      + apply elem_of_app in Hm as [Hm | Hm].
        * repeat (apply elem_of_cons in Hm as [Hm | Hm]; [discriminate|]).
          by apply elem_of_nil in Hm.
        * destruct (model _);
            repeat (apply elem_of_cons in Hm as [Hm | Hm]; [discriminate|]);
            by apply elem_of_nil in Hm. }
  assert (content = "" →
          prompts (shown (summarize_send model content s1)) = []
          ∧ (st_warning "Please paste notes or upload a PDF document to summarize."
             ∈ pass_events Summarize s
                 (l1 ++ shown (summarize_send model content s1))
                 (store (summarize_send model content s1)))
          ∧ ∀ n, st_warning (truncation_warning n)
                 ∉ pass_events Summarize s
                     (l1 ++ shown (summarize_send model content s1))
                     (store (summarize_send model content s1)))
    as Hempty.
  { intros ->. rewrite summarize_send_empty. cbn [shown store].
    split_and!; [done | |].
    - apply notice_in_pass_events; [done|].
      apply elem_of_app. right. apply list_elem_of_here.
    - intros n Hn. apply notice_in_pass_events in Hn; [|done].
      apply elem_of_app in Hn as [Hn | Hn];
        [|apply list_elem_of_singleton in Hn; discriminate].
      destruct (uploaded_file w) as [f|] eqn:Hf.
      + destruct (extract_text_from_pdf f) as [t|e] eqn:Ht.
        * rewrite (summarize_collect_pdf w s f t Hf Ht) in E.
          destruct (truthy (strip t)); simplify_eq;
            repeat (apply elem_of_cons in Hn as [Hn | Hn]; [discriminate|]);
            by apply elem_of_nil in Hn.
        * rewrite (summarize_collect_bad_pdf w s f e Hf Ht) in E.
          simplify_eq.
          repeat (apply elem_of_cons in Hn as [Hn | Hn]; [discriminate|]).
          by apply elem_of_nil in Hn.
      + rewrite (summarize_collect_typed w s Hf) in E.
        destruct (truthy (notes_input w)); simplify_eq;
          by apply elem_of_nil in Hn. }
  split_and!.
  - intros Hlen. rewrite summarize_send_long by done. cbn [shown store].
    split_and!.
    + rewrite prompts_app. cbn [prompts]. by destruct (model _).
    + rewrite slice_to_nonneg by done. apply take_prefix.
    + apply len_slice_to. unfold MAX_CHARS_FOR_GEMINI in *. lia.
    + apply notice_in_pass_events; [done|].
      apply elem_of_app. right. apply list_elem_of_here.
    + apply truncation_warning_cites_threshold.
  - exact Hshort.
  - intros Hnil. destruct (Hempty Hnil) as (? & ? & _). by split.
  - intros Hlen. destruct (decide (content = "")) as [Hnil | Hne].
    + destruct (Hempty Hnil) as (H0 & _ & Hn). rewrite H0.
      split; [by intros p Hp'%elem_of_nil | done].
    + destruct (Hshort Hne Hlen) as [H1 Hquiet]. rewrite H1.
      split; [by intros p ->%list_elem_of_singleton | by intros n].
Qed.

(** The scenario of the specification: 60,000 pasted characters. *)
Lemma summarize_truncates_long_content_witness :
  prompts (shown (click echo long_notes_page SummarizeContent long_notes_page
                    first_render))
  = ["Summarize the following study notes concisely, highlighting the main points and key takeaways. Aim for a summary that captures the essence of the notes: "
     +:+ slice_to long_notes 50000]
  ∧ (∃ rest, long_notes = slice_to long_notes 50000 +:+ rest)
  ∧ len (slice_to long_notes 50000) = 50000
  ∧ st_warning
      ("Your input is very long (" +:+ str_of_int (len long_notes)
      +:+ " characters). Summarizing the first 50000 characters to fit AI limits. For very long documents, consider summarizing in chunks.")
    ∈ shown (click echo long_notes_page SummarizeContent long_notes_page
               first_render)
  ∧ mentions
      ("Your input is very long (" +:+ str_of_int (len long_notes)
      +:+ " characters). Summarizing the first 50000 characters to fit AI limits. For very long documents, consider summarizing in chunks.")
      "50000".
Proof.
  refine (proj1 (proj2 (summarize_truncates_long_content echo long_notes_page
                          long_notes_page first_render long_notes _ _)) _).
  - apply (bool_decide_unpack _). by vm_compute.
  - reflexivity.
  - by vm_compute.
Defined.

(** C1, as stated, fails on empty content: with nothing pasted and no file
    the content has at most 50,000 characters, yet nothing is sent and a
    warning is shown. *)
Lemma empty_content_is_not_sent :
  returned (summarize_collect blank_page first_render) = inl ""
  ∧ len "" ≤ 50000
  ∧ prompts (shown (click echo blank_page SummarizeContent blank_page
                      first_render)) = []
  ∧ notices (shown (click echo blank_page SummarizeContent blank_page
                      first_render))
    = [st_warning "Please paste notes or upload a PDF document to summarize."].
Proof. by vm_compute. Qed.

(** ** Asking the model *)

Lemma simple_button_asks model b w s :
  is_simple b = true → typed_input b w ≠ "" →
  handler model b w s
  = Outcome (inl tt)
      (<[output_slot (feature_of b) :=
           PStr (reply_text (model (prompt_template b (typed_input b w))))]>
         (<[input_slot (feature_of b) := PStr (typed_input b w)]> s))
      ([st_spinner (spinner_text b);
        generate_content (prompt_template b (typed_input b w))]
       ++ match model (prompt_template b (typed_input b w)) with
          | Ok _ => []
          | Raise e => [st_error (error_label b +:+ str e)]
          end).
Proof.
  destruct b; try discriminate; intros _ Hc%truthy_true;
    cbn [handler typed_input prompt_template feature_of output_slot input_slot
         spinner_text error_label] in *;
    [unfold explain_button | unfold quiz_button | unfold flashcards_button];
    rewrite Hc; page_unfold; page_simpl;
    match goal with |- context [model ?p] => destruct (model p) end;
    by page_simpl.
Qed.

Lemma simple_button_no_input b w :
  is_simple b = true → typed_input b w = "" → no_input b w.
Proof. by destruct b. Qed.

(** What every action handler does with the model: it asks at most once;
    the reply, or "Error: " and the exception's message, goes to the
    feature's output slot; a failure is also shown with [st.error]. *)
Lemma handler_asks_once model b w s :
  is_action b = true →
  prompts (shown (handler model b w s)) = []
  ∨ ∃ p, prompts (shown (handler model b w s)) = [p]
         ∧ store (handler model b w s) !! output_slot (feature_of b)
           = Some (PStr (reply_text (model p)))
         ∧ ∀ e, model p = Raise e →
                st_error (error_label b +:+ str e) ∈ shown (handler model b w s).
Proof.
  intros Hb. destruct (is_simple b) eqn:Hsimple.
  - destruct (decide (typed_input b w = "")) as [Hc | Hc].
    + left. by rewrite (handler_no_input model b w s)
        by by apply simple_button_no_input.
    + right. eexists. rewrite (simple_button_asks model b w s Hsimple Hc).
      cbn [store shown]. rewrite lookup_insert_eq, prompts_app.
      split_and!; [by destruct (model _) | done |].
      intros e ->. apply elem_of_app. right. apply list_elem_of_here.
  - destruct b; try discriminate. cbn [handler feature_of output_slot error_label].
    destruct (summarize_collect_events w s) as [Hp _].
    destruct (summarize_collect_run w s) as (c & s1 & l1 & E & _).
    rewrite E in Hp. cbn [shown] in Hp.
    rewrite (summarize_button_compose model w s c s1 l1 E). cbn [store shown].
    rewrite prompts_app, Hp, app_nil_l.
    destruct (decide (c = "")) as [-> | Hc].
    { left. by rewrite summarize_send_empty. }
    right. destruct (Z.le_gt_cases (len c) MAX_CHARS_FOR_GEMINI) as [Hlen | Hlen].
    + eexists. rewrite summarize_send_short by done. cbn [store shown].
      rewrite lookup_insert_eq, prompts_app.
      split_and!; [by destruct (model _) | done |].
      intros e ->. apply elem_of_app. right.
      apply elem_of_app. right. apply list_elem_of_here.
    + eexists. rewrite summarize_send_long by done. cbn [store shown].
      rewrite lookup_insert_eq, prompts_app.
      split_and!; [by destruct (model _) | done |].
      intros e ->. apply elem_of_app. right.
      apply elem_of_app. right. apply list_elem_of_here.
Qed.

(** C8.  Whenever a click makes a model call that fails with an exception
    [e], the feature's output slot ends up holding "Error: " followed by the
    message of [e] (whatever it held before), the message is shown on the
    page by [st.error], and that call is the only one of the request. *)
Theorem model_failure_is_reported model w w' s b p e :
  initialised s →
  generate_content p ∈ shown (click model w b w' s) →
  model p = Raise e →
  store (click model w b w' s) !! output_slot (feature_of b)
  = Some (PStr ("Error: " +:+ str e))
  ∧ mentions ("Error: " +:+ str e) (str e)
  ∧ (∃ m, st_error m ∈ shown (click model w b w' s) ∧ mentions m (str e))
  ∧ prompts (shown (click model w b w' s)) = [p].
Proof.
  intros Hs Hp He. apply elem_of_prompts in Hp.
  destruct (is_action b) eqn:Hb.
  - destruct (click_action_outcome model w b w' s Hs Hb) as (_ & Hst & Hsh).
    rewrite Hst, Hsh, prompts_pass_events in *.
    destruct (handler_asks_once model b w s Hb) as [H0 | (p0 & H1 & Hslot & Herr)].
    { rewrite H0 in Hp. by apply elem_of_nil in Hp. }
    rewrite H1 in Hp. apply list_elem_of_singleton in Hp as ->.
    rewrite Hslot, He. split_and!; [done | apply mentions_suffix | | done].
    exists (error_label b +:+ str e). split; [|apply mentions_suffix].
    apply notice_in_pass_events; [done | by apply Herr].
  - unfold is_action in Hb. apply negb_false_iff in Hb.
    rewrite click_clear in Hp by done. cbn [shown] in Hp.
    exfalso. apply elem_of_prompts in Hp.
    destruct b; try discriminate; cbn [drawn_before] in Hp;
      rewrite ?elem_of_app in Hp; decompose [or] Hp;
      match goal with
      | H : _ ∈ output_area _ _ |- _ =>
          by apply elem_of_output_area in H
      | H : _ ∈ [] |- _ => by apply elem_of_nil in H
      end.
Qed.

Lemma model_failure_is_reported_witness :
  store (click quota_exceeded photosynthesis_page ExplainConcept
           photosynthesis_page first_render) !! "explain_output"
  = Some (PStr "Error: 429 quota exceeded")
  ∧ mentions "Error: 429 quota exceeded" "429 quota exceeded"
  ∧ (∃ m, st_error m
          ∈ shown (click quota_exceeded photosynthesis_page ExplainConcept
                     photosynthesis_page first_render)
          ∧ mentions m "429 quota exceeded")
  ∧ prompts (shown (click quota_exceeded photosynthesis_page ExplainConcept
                      photosynthesis_page first_render))
    = [explain_prompt "Photosynthesis"].
Proof.
  apply (model_failure_is_reported quota_exceeded photosynthesis_page
           photosynthesis_page first_render ExplainConcept
           (explain_prompt "Photosynthesis") (Exn "429 quota exceeded")).
  - apply (bool_decide_unpack _). by vm_compute.
  - vm_compute. apply list_elem_of_further, list_elem_of_here.
  - reflexivity.
Defined.

Lemma output_area_insert_other f s k v :
  k ≠ output_slot f → output_area f (<[k := v]> s) = output_area f s.
Proof.
  intros Hk. destruct f; cbn [output_area output_slot] in *; unfold slot;
    by rewrite lookup_insert_ne.
Qed.

Lemma output_area_explain_own s v :
  output_area Explain (<["explain_output" := v]> s)
  = rendering v "Explanation Output" "explain".
Proof. unfold output_area, slot. by rewrite lookup_insert_eq. Qed.

(** ** The explain scenario *)

(** C5, as amended.  With "Photosynthesis" in the concept box the prompt
    sent is the explain template followed by Photosynthesis; when the model
    returns the text [T], the explain output slot holds [T]; when [T] is not
    empty the copy field and the expandable view both show [T]; when [T] is
    empty neither is drawn and the placeholder is shown. *)
Theorem explain_photosynthesis model w w' s T :
  initialised s →
  concept_input w = "Photosynthesis" →
  model "Explain the following concept in simple terms for a student, focusing on clarity and easy understanding: Photosynthesis"
  = Ok T →
  prompts (shown (click model w ExplainConcept w' s))
  = ["Explain the following concept in simple terms for a student, focusing on clarity and easy understanding: Photosynthesis"]
  ∧ store (click model w ExplainConcept w' s) !! "explain_output"
    = Some (PStr T)
  ∧ (T ≠ "" →
     shown (click model w ExplainConcept w' s)
     = [st_spinner "AI is thinking...";
        generate_content (explain_prompt "Photosynthesis");
        st_subheader "Explanation Output";
        st_text_area "explain_copy_area" (PStr T);
        st_expander_markdown "Read Full Output" (PStr T)]
       ++ output_area Summarize s ++ output_area Quiz s)
  ∧ (T = "" →
     shown (click model w ExplainConcept w' s)
     = [st_spinner "AI is thinking...";
        generate_content (explain_prompt "Photosynthesis");
        st_info "AI output will appear here."]
       ++ output_area Summarize s ++ output_area Quiz s).
Proof.
  intros Hs Hc HT.
  destruct (click_action_outcome model w ExplainConcept w' s Hs eq_refl)
    as (_ & Hst & Hsh).
  rewrite Hst, Hsh, prompts_pass_events. clear Hst Hsh.
  rewrite (simple_button_asks model ExplainConcept w s eq_refl)
    by (cbn; by rewrite Hc).
  cbn [typed_input prompt_template feature_of output_slot input_slot
       spinner_text store shown pass_events].
  rewrite Hc.
  change (explain_prompt "Photosynthesis")
    with "Explain the following concept in simple terms for a student, focusing on clarity and easy understanding: Photosynthesis".
  rewrite HT. cbn [reply_text]. rewrite app_nil_r.
  rewrite !(output_area_insert_other Summarize) by done.
  rewrite !(output_area_insert_other Quiz) by done.
  rewrite output_area_explain_own. unfold rendering. cbn [bool_of].
  split_and!; [done | by rewrite lookup_insert_eq | |].
  - by intros ->%truthy_true.
  - by intros ->.
Qed.

Lemma explain_photosynthesis_witness :
  prompts (shown (click echo photosynthesis_page ExplainConcept
                    photosynthesis_page first_render))
  = ["Explain the following concept in simple terms for a student, focusing on clarity and easy understanding: Photosynthesis"]
  ∧ store (click echo photosynthesis_page ExplainConcept photosynthesis_page
             first_render) !! "explain_output"
    = Some (PStr photosynthesis_answer)
  ∧ (photosynthesis_answer ≠ "" →
     shown (click echo photosynthesis_page ExplainConcept photosynthesis_page
              first_render)
     = [st_spinner "AI is thinking...";
        generate_content (explain_prompt "Photosynthesis");
        st_subheader "Explanation Output";
        st_text_area "explain_copy_area" (PStr photosynthesis_answer);
        st_expander_markdown "Read Full Output" (PStr photosynthesis_answer)]
       ++ output_area Summarize first_render ++ output_area Quiz first_render)
  ∧ (photosynthesis_answer = "" →
     shown (click echo photosynthesis_page ExplainConcept photosynthesis_page
              first_render)
     = [st_spinner "AI is thinking...";
        generate_content (explain_prompt "Photosynthesis");
        st_info "AI output will appear here."]
       ++ output_area Summarize first_render ++ output_area Quiz first_render).
Proof.
  apply (explain_photosynthesis echo photosynthesis_page photosynthesis_page
           first_render photosynthesis_answer).
  - apply (bool_decide_unpack _). by vm_compute.
  - reflexivity.
  - reflexivity.
Defined.

(** C5, as stated, fails when the model returns the empty text: the slot
    holds it, but neither output widget is drawn. *)
Lemma empty_answer_is_not_rendered :
  let o := click mute photosynthesis_page ExplainConcept photosynthesis_page
             first_render in
  mute (explain_prompt "Photosynthesis") = Ok ""
  ∧ store o !! "explain_output" = Some (PStr "")
  ∧ shown o
    = [st_spinner "AI is thinking...";
       generate_content (explain_prompt "Photosynthesis");
       st_info "AI output will appear here.";
       st_info "AI output will appear here.";
       st_info "AI output will appear here."]
  ∧ (∀ key value, st_text_area key value ∉ shown o)
  ∧ (∀ label body, st_expander_markdown label body ∉ shown o).
Proof.
  assert (shown (click mute photosynthesis_page ExplainConcept
                   photosynthesis_page first_render)
          = [st_spinner "AI is thinking...";
             generate_content (explain_prompt "Photosynthesis");
             st_info "AI output will appear here.";
             st_info "AI output will appear here.";
             st_info "AI output will appear here."]) as Hshown
    by by vm_compute.
  cbv zeta. rewrite Hshown.
  split_and!; [done | by vm_compute | done | |];
    intros ? ? Hin;
    repeat (apply elem_of_cons in Hin as [Hin | Hin]; [discriminate|]);
    by apply elem_of_nil in Hin.
Qed.

(** ** Documents without text, documents with pasted notes *)

(** C7.  When the uploaded document parses but its extracted text is empty
    or white space only, a click on Summarize Content shows the warning
    that no readable text could be extracted and makes no model call. *)
Theorem unreadable_pdf_is_reported model w w' s f text :
  initialised s →
  uploaded_file w = Some f →
  extract_text_from_pdf f = Ok text →
  whitespace_only text →
  st_warning unreadable_pdf_warning ∈ shown (click model w SummarizeContent w' s)
  ∧ prompts (shown (click model w SummarizeContent w' s)) = []
  ∧ notices (shown (click model w SummarizeContent w' s))
    = [st_write "Processing PDF...";
       st_warning unreadable_pdf_warning;
       st_warning (empty_input_warning SummarizeContent)].
Proof.
  intros Hs Hf Ht Hw.
  pose proof (summarize_collect_pdf w s f text Hf Ht) as E.
  rewrite (strip_whitespace_only text Hw) in E. cbn [truthy] in E.
  destruct (click_summarize model w w' s _ _ _ Hs E) as [_ Hsh].
  rewrite Hsh, prompts_pass_events, notices_pass_events,
    notice_in_pass_events by done.
  rewrite summarize_send_empty. cbn [shown].
  split_and!; [|done|done].
  apply list_elem_of_further, list_elem_of_here.
Qed.

Lemma unreadable_pdf_is_reported_witness :
  st_warning unreadable_pdf_warning
  ∈ shown (click echo scanned_pdf_page SummarizeContent scanned_pdf_page
             first_render)
  ∧ prompts (shown (click echo scanned_pdf_page SummarizeContent
                      scanned_pdf_page first_render)) = []
  ∧ notices (shown (click echo scanned_pdf_page SummarizeContent
                      scanned_pdf_page first_render))
    = [st_write "Processing PDF...";
       st_warning unreadable_pdf_warning;
       st_warning (empty_input_warning SummarizeContent)].
Proof.
  apply (unreadable_pdf_is_reported echo scanned_pdf_page scanned_pdf_page
           first_render scanned_pdf (NL +:+ "  " +:+ NL)).
  - apply (bool_decide_unpack _). by vm_compute.
  - reflexivity.
  - reflexivity.
  - reflexivity.
Defined.



Lemma summarize_send_keeps_input model c s :
  store (summarize_send model c s) !! "summarize_input" = s !! "summarize_input".
Proof.
  destruct (decide (c = "")) as [-> | Hc].
  { rewrite summarize_send_empty. cbn [store]. by rewrite lookup_insert_ne. }
  destruct (Z.le_gt_cases (len c) MAX_CHARS_FOR_GEMINI) as [Hlen | Hlen].
  - rewrite summarize_send_short by done. cbn [store].
    by rewrite lookup_insert_ne.
  - rewrite summarize_send_long by done. cbn [store].
    by rewrite lookup_insert_ne.
Qed.



(** ** Invariance of the slots *)

Ltac page_simpl_any :=
  repeat (first
    [ progress cbn -[lookup insert String.append rendering]
    | rewrite lookup_insert_eq
    | rewrite lookup_insert_ne by discriminate
    | rewrite display_ai_output_run
    | match goal with
      | H : ?s !! ?k = _ |- context [?s !! ?k] => rewrite H
      end ]).

Ltac first_pass_section :=
  page_unfold; page_simpl_any;
  eexists _, _; split;
  [ reflexivity
  | split_and!;
    [ rewrite ?lookup_insert_is_Some'; eauto ..
    | intros ? ?; rewrite ?lookup_insert_is_Some'; auto ] ].

Lemma explain_section_first_pass model w s :
  ∃ s' l, explain_section model w None s = Outcome (inl tt) s' l
        ∧ is_Some (s' !! "explain_input") ∧ is_Some (s' !! "explain_output")
        ∧ ∀ k, is_Some (s !! k) → is_Some (s' !! k).
Proof.
  unfold explain_section, pressed.
  rewrite !(bool_decide_eq_false_2 (None = Some _)) by done.
  destruct (s !! "explain_input") eqn:E1, (s !! "explain_output") eqn:E2;
    first_pass_section.
Qed.

Lemma summarize_section_first_pass model w s :
  ∃ s' l, summarize_section model w None s = Outcome (inl tt) s' l
        ∧ is_Some (s' !! "summarize_input")
        ∧ is_Some (s' !! "summarize_output")
        ∧ is_Some (s' !! "uploaded_file")
        ∧ ∀ k, is_Some (s !! k) → is_Some (s' !! k).
Proof.
  unfold summarize_section, pressed.
  rewrite !(bool_decide_eq_false_2 (None = Some _)) by done.
  destruct (s !! "summarize_input") eqn:E1, (s !! "summarize_output") eqn:E2,
    (s !! "uploaded_file") eqn:E3;
    first_pass_section.
Qed.

Lemma quiz_section_first_pass model w s :
  ∃ s' l, quiz_section model w None s = Outcome (inl tt) s' l
        ∧ is_Some (s' !! "quiz_topic_input")
        ∧ is_Some (s' !! "quiz_flashcard_output")
        ∧ ∀ k, is_Some (s !! k) → is_Some (s' !! k).
Proof.
  unfold quiz_section, pressed.
  rewrite !(bool_decide_eq_false_2 (None = Some _)) by done.
  destruct (s !! "quiz_topic_input") eqn:E1,
    (s !! "quiz_flashcard_output") eqn:E2;
    first_pass_section.
Qed.

(** A pass in which no button is pressed runs to its last line, whatever
    the store it starts from, and leaves every slot in existence. *)
Lemma script_initialises model w s :
  returned (script model w None s) = inl tt
  ∧ initialised (store (script model w None s)).
Proof.
  destruct (explain_section_first_pass model w s)
    as (s1 & l1 & E1 & Hei & Heo & G1).
  destruct (summarize_section_first_pass model w s1)
    as (s2 & l2 & E2 & Hsi & Hso & Huf & G2).
  destruct (quiz_section_first_pass model w s2)
    as (s3 & l3 & E3 & Hqi & Hqo & G3).
  unfold script. page_unfold. rewrite E1, E2, E3. cbn [returned store].
  split; [done|].
  unfold initialised, slots. cbn.
  repeat (apply Forall_cons; split); auto.
Qed.

Lemma click_initialised model w b w' s :
  initialised s → initialised (store (click model w b w' s)).
Proof.
  intros Hs. destruct (is_action b) eqn:Hb.
  - destruct (handler_run model b w s Hb) as (s' & l & E & G).
    rewrite (click_action model w b w' s s' l) by done.
    by apply (initialised_mono s).
  - unfold is_action in Hb. apply negb_false_iff in Hb.
    rewrite click_clear by done. by apply initialised_cleared.
Qed.

(** ** Quiz and flashcards *)

(** C10.  Generate Quiz and Generate Flashcards store the model's answer in
    the same slot, [quiz_flashcard_output]: after a successful press of
    either the slot holds that answer, a later successful press of either
    replaces it, and no attribute outside the quiz feature's own two slots
    (in particular no Explain or Summarize slot) changes. *)
Theorem quiz_and_flashcards_share_output
    model1 model2 w1 w1' w2 w2' s b1 b2 T1 T2 :
  initialised s →
  feature_of b1 = Quiz → is_action b1 = true →
  feature_of b2 = Quiz → is_action b2 = true →
  quiz_topic_input w1 ≠ "" → quiz_topic_input w2 ≠ "" →
  model1 (prompt_template b1 (quiz_topic_input w1)) = Ok T1 →
  model2 (prompt_template b2 (quiz_topic_input w2)) = Ok T2 →
  store (click model1 w1 b1 w1' s) !! "quiz_flashcard_output" = Some (PStr T1)
  ∧ store (click model2 w2 b2 w2' (store (click model1 w1 b1 w1' s)))
      !! "quiz_flashcard_output" = Some (PStr T2)
  ∧ ∀ k, k ∉ own_slots Quiz →
         store (click model1 w1 b1 w1' s) !! k = s !! k
         ∧ store (click model2 w2 b2 w2' (store (click model1 w1 b1 w1' s))) !! k
           = s !! k.
Proof.
  intros Hs Hf1 Ha1 Hf2 Ha2 Hc1 Hc2 HT1 HT2.
  assert (∀ model w w' s0 b T,
            initialised s0 → feature_of b = Quiz → is_action b = true →
            quiz_topic_input w ≠ "" →
            model (prompt_template b (quiz_topic_input w)) = Ok T →
            store (click model w b w' s0)
            = <["quiz_flashcard_output" := PStr T]>
                (<["quiz_topic_input" := PStr (quiz_topic_input w)]> s0))
    as Hstore.
  { intros model w w' s0 b T Hs0 Hf Ha Hc HT.
    destruct (click_action_outcome model w b w' s0 Hs0 Ha) as (_ & Hst & _).
    rewrite Hst.
    assert (is_simple b = true ∧ typed_input b w = quiz_topic_input w)
      as [Hsimple Htyped] by (by destruct b).
    rewrite (simple_button_asks model b w s0 Hsimple) by by rewrite Htyped.
    cbn [store]. by rewrite Hf, Htyped, HT. }
  rewrite (Hstore model2 w2 w2' _ b2 T2) by auto using click_initialised.
  rewrite (Hstore model1 w1 w1' s b1 T1) by done.
  split_and!; [by rewrite lookup_insert_eq | by rewrite lookup_insert_eq |].
  intros k Hk. cbn in Hk. rewrite !not_elem_of_cons in Hk. destruct_and!.
  by rewrite !lookup_insert_ne by congruence.
Qed.

Lemma quiz_and_flashcards_share_output_witness :
  store (click echo cell_biology_page GenerateQuiz cell_biology_page
           answered_session) !! "quiz_flashcard_output"
  = Some (PStr (reply_text (echo (quiz_prompt "Cell Biology"))))
  ∧ store (click mute cell_biology_page GenerateFlashcards cell_biology_page
             (store (click echo cell_biology_page GenerateQuiz
                       cell_biology_page answered_session)))
      !! "quiz_flashcard_output" = Some (PStr "")
  ∧ ∀ k, k ∉ own_slots Quiz →
         store (click echo cell_biology_page GenerateQuiz cell_biology_page
                  answered_session) !! k = answered_session !! k
         ∧ store (click mute cell_biology_page GenerateFlashcards
                    cell_biology_page
                    (store (click echo cell_biology_page GenerateQuiz
                              cell_biology_page answered_session))) !! k
           = answered_session !! k.
Proof.
  apply (quiz_and_flashcards_share_output echo mute cell_biology_page
           cell_biology_page cell_biology_page cell_biology_page
           answered_session GenerateQuiz GenerateFlashcards).
  - apply (bool_decide_unpack _). by vm_compute.
  - reflexivity.
  - reflexivity.
  - reflexivity.
  - reflexivity.
  - discriminate.
  - discriminate.
  - reflexivity.
  - reflexivity.
Defined.

(** * The rest of the file *)

(** ** What a handler does to the session and to the page *)

Lemma well_typed_insert_text k t s :
  k ≠ "uploaded_file" → well_typed s → well_typed (<[k := PStr t]> s).
Proof.
  intros Hk [Htext Hfile]. split.
  - intros j v Hj. destruct (decide (k = j)) as [<- | Hne].
    + rewrite lookup_insert_eq. intros [= <-]. by exists t.
    + rewrite lookup_insert_ne by done. by apply Htext.
  - intros v. rewrite lookup_insert_ne by done. apply Hfile.
Qed.

Lemma well_typed_insert_upload v s :
  (v = PNone ∨ ∃ f, v = PFile f) →
  well_typed s → well_typed (<["uploaded_file" := v]> s).
Proof.
  intros Hv [Htext Hfile]. split.
  - intros j u Hj. rewrite lookup_insert_ne; [by apply Htext|].
    intros <-. unfold text_slots in Hj.
    repeat (apply elem_of_cons in Hj as [Hj | Hj]; [discriminate|]).
    by apply elem_of_nil in Hj.
  - intros u. rewrite lookup_insert_eq. by intros [= <-].
Qed.

Lemma renderings_app l1 l2 :
  renderings (l1 ++ l2) = renderings l1 ++ renderings l2.
Proof. apply List.filter_app. Qed.

Lemma renderings_rendering v label key_prefix :
  renderings (rendering v label key_prefix) = rendering v label key_prefix.
Proof. unfold rendering. by destruct (bool_of v). Qed.

Lemma renderings_output_area f s :
  renderings (output_area f s) = output_area f s.
Proof. destruct f; apply renderings_rendering. Qed.

Lemma output_area_agree f s s' :
  s' !! output_slot f = s !! output_slot f →
  output_area f s' = output_area f s.
Proof.
  intros H. destruct f; cbn [output_area output_slot] in *; unfold slot;
    by rewrite H.
Qed.

Lemma confined_trans {A B} keys s (o1 : outcome A) (o2 : outcome B) :
  confined keys s o1 → confined keys (store o1) o2 →
  confined keys s (Outcome (returned o2) (store o2) (shown o1 ++ shown o2)).
Proof.
  intros (F1 & T1 & R1) (F2 & T2 & R2). split_and!; cbn [store shown].
  - intros k Hk. by rewrite F2, F1.
  - auto.
  - by rewrite renderings_app, R1, R2.
Qed.

(** An explicit outcome (a few assignments to slots of [keys], a few
    messages) is confined. *)
Ltac confined_outcome :=
  split_and!; cbn [store shown feature_of output_slot input_slot own_slots];
  [ let k := fresh "k" in
    let Hk := fresh "Hk" in
    intros k Hk; cbn in Hk; rewrite !not_elem_of_cons in Hk; destruct_and!;
    by rewrite ?lookup_insert_ne by congruence
  | let Hs := fresh "Hs" in
    intros Hs;
    repeat first
      [ apply well_typed_insert_text; [discriminate|]
      | apply well_typed_insert_upload; [eauto|] ];
    exact Hs
  | try match goal with |- context [match ?r with Ok _ => _ | Raise _ => _ end] =>
          destruct r
        end;
    reflexivity ].

Lemma summarize_collect_confined w s :
  confined (own_slots Summarize) s (summarize_collect w s).
Proof.
  destruct (uploaded_file w) as [f|] eqn:Hf.
  - destruct (extract_text_from_pdf f) as [t|e] eqn:Ht.
    + rewrite (summarize_collect_pdf w s f t Hf Ht).
      destruct (truthy (strip t)); confined_outcome.
    + rewrite (summarize_collect_bad_pdf w s f e Hf Ht). confined_outcome.
  - rewrite (summarize_collect_typed w s Hf).
    destruct (truthy (notes_input w)); confined_outcome.
Qed.

Lemma summarize_send_confined model c s :
  confined (own_slots Summarize) s (summarize_send model c s).
Proof.
  destruct (decide (c = "")) as [-> | Hc].
  { rewrite summarize_send_empty. confined_outcome. }
  destruct (Z.le_gt_cases (len c) MAX_CHARS_FOR_GEMINI) as [Hlen | Hlen].
  - rewrite summarize_send_short by done. confined_outcome.
  - rewrite summarize_send_long by done. confined_outcome.
Qed.

(** Every action handler assigns to its own feature's slots only, keeps the
    slots' types, and draws no output area itself. *)
Lemma handler_confined model b w s :
  is_action b = true →
  confined (own_slots (feature_of b)) s (handler model b w s).
Proof.
  intros Hb. destruct (is_simple b) eqn:Hsimple.
  - destruct (decide (typed_input b w = "")) as [Hc | Hc].
    + rewrite (handler_no_input model b w s)
        by by apply simple_button_no_input.
      destruct b; try discriminate; confined_outcome.
    + rewrite (simple_button_asks model b w s Hsimple Hc).
      destruct b; try discriminate; confined_outcome.
  - destruct b; try discriminate. cbn [handler feature_of].
    destruct (summarize_collect_run w s) as (c & s1 & l1 & E & _).
    rewrite (summarize_button_compose model w s c s1 l1 E).
    pose proof (summarize_collect_confined w s) as H1.
    pose proof (summarize_send_confined model c s1) as H2.
    rewrite E in H1.
    apply (confined_trans _ s (Outcome (inl c) s1 l1)
             (summarize_send model c s1) H1 H2).
Qed.

(** ** Frames, and the page against the session *)

Lemma cleared_frame b s k :
  k ∉ own_slots (feature_of b) → cleared b s !! k = s !! k.
Proof.
  intros Hk. destruct b; cbn [cleared]; try done;
    cbn in Hk; rewrite !not_elem_of_cons in Hk; destruct_and!;
    by rewrite !lookup_insert_ne by congruence.
Qed.

Lemma click_frame model w b w' s k :
  initialised s → k ∉ own_slots (feature_of b) →
  store (click model w b w' s) !! k = s !! k.
Proof.
  intros Hs Hk. destruct (is_action b) eqn:Hb.
  - destruct (click_action_outcome model w b w' s Hs Hb) as (_ & -> & _).
    by apply (handler_confined model b w s Hb).
  - unfold is_action in Hb. apply negb_false_iff in Hb.
    rewrite click_clear by done. by apply cleared_frame.
Qed.

Lemma output_slot_own f : output_slot f ∈ own_slots f.
Proof. destruct f; cbn; apply list_elem_of_further, list_elem_of_here. Qed.

Lemma output_slot_foreign f g : f ≠ g → output_slot f ∉ own_slots g.
Proof.
  intros Hfg Hin. destruct f, g; try done; cbn in Hin;
    repeat (apply elem_of_cons in Hin as [Hin | Hin]; [discriminate|]);
    by apply elem_of_nil in Hin.
Qed.

(** X1.  A click, on an action button or on Clear, changes none of the
    seven slots of the page outside those of the clicked button's own
    feature, whatever the widgets hold and whatever the model or the PDF
    parser does. *)
Theorem click_changes_own_feature_only model w b w' s k :
  initialised s →
  k ∈ slots →
  k ∉ own_slots (feature_of b) →
  store (click model w b w' s) !! k = s !! k.
Proof. intros Hs _ Hk. by apply click_frame. Qed.

Lemma click_changes_own_feature_only_witness :
  store (click quota_exceeded pdf_and_notes_page SummarizeContent
           pdf_and_notes_page answered_session) !! "explain_output"
  = answered_session !! "explain_output".
Proof.
  apply (click_changes_own_feature_only quota_exceeded pdf_and_notes_page
           SummarizeContent pdf_and_notes_page answered_session
           "explain_output").
  - apply (bool_decide_unpack _). by vm_compute.
  - apply (bool_decide_unpack _). by vm_compute.
  - apply (bool_decide_unpack _). by vm_compute.
Defined.

Lemma click_drawing model w b w' s :
  initialised s →
  renderings (shown (click model w b w' s))
  = (if is_action b then [] else drawn_before b s)
    ++ page_of (store (click model w b w' s)).
Proof.
  intros Hs. unfold page_of. destruct (is_action b) eqn:Hb.
  - destruct (click_action_outcome model w b w' s Hs Hb) as (_ & Hst & Hsh).
    rewrite Hsh, Hst.
    destruct (handler_confined model b w s Hb) as (F & _ & R).
    destruct (feature_of b) eqn:Hf; cbn [pass_events];
      rewrite !renderings_app, !renderings_output_area, R.
    + done.
    + rewrite <- (output_area_agree Explain s (store (handler model b w s)));
        [done|].
      apply F. by apply output_slot_foreign.
    + rewrite <- (output_area_agree Explain s (store (handler model b w s))).
      2:{ apply F. by apply output_slot_foreign. }
      rewrite <- (output_area_agree Summarize s (store (handler model b w s))).
      2:{ apply F. by apply output_slot_foreign. }
      done.
  - unfold is_action in Hb. apply negb_false_iff in Hb.
    rewrite click_clear by done. cbn [shown store].
    rewrite !renderings_app, !renderings_output_area. f_equal.
    destruct b; try discriminate; cbn [drawn_before];
      by rewrite ?renderings_app, ?renderings_output_area.
Qed.

(** X2.  After a click on an action button the output areas on the page
    are exactly those of the session the click leaves: the three areas, top
    to bottom, each drawn from its output slot's final value, and no other
    output area. *)
Theorem page_shows_the_session model w b w' s :
  initialised s → is_action b = true →
  renderings (shown (click model w b w' s))
  = page_of (store (click model w b w' s)).
Proof. intros Hs Hb. rewrite click_drawing by done. by rewrite Hb. Qed.

Lemma page_shows_the_session_witness :
  renderings (shown (click echo cell_biology_page GenerateFlashcards
                       cell_biology_page answered_session))
  = page_of (store (click echo cell_biology_page GenerateFlashcards
                      cell_biology_page answered_session)).
Proof.
  apply (page_shows_the_session echo cell_biology_page GenerateFlashcards
           cell_biology_page answered_session).
  - apply (bool_decide_unpack _). by vm_compute.
  - reflexivity.
Defined.

(** X3.  What another feature has on the page survives a click: for every
    feature other than the clicked button's, the output area is the same
    before and after the click, and each of its events is drawn again by
    the click. *)
Theorem other_outputs_survive_a_click model w b w' s f :
  initialised s → f ≠ feature_of b →
  output_area f (store (click model w b w' s)) = output_area f s
  ∧ ∀ e, e ∈ output_area f s → e ∈ shown (click model w b w' s).
Proof.
  intros Hs Hf.
  assert (output_area f (store (click model w b w' s)) = output_area f s)
    as Harea.
  { apply output_area_agree, click_frame; [done|].
    by apply output_slot_foreign. }
  split; [done|]. intros e He.
  assert (e ∈ renderings (shown (click model w b w' s))) as Hin.
  { rewrite click_drawing by done. apply elem_of_app. right.
    unfold page_of. rewrite <- Harea in He.
    destruct f; rewrite !elem_of_app; auto. }
  unfold renderings in Hin. apply list_elem_of_In in Hin.
  apply List.filter_In in Hin as [Hin _]. by apply list_elem_of_In.
Qed.

Lemma other_outputs_survive_a_click_witness :
  output_area Explain
    (store (click echo cell_biology_page ClearQuiz cell_biology_page
              answered_session))
  = output_area Explain answered_session
  ∧ ∀ e, e ∈ output_area Explain answered_session →
         e ∈ shown (click echo cell_biology_page ClearQuiz cell_biology_page
                      answered_session).
Proof.
  apply (other_outputs_survive_a_click echo cell_biology_page ClearQuiz
           cell_biology_page answered_session Explain).
  - apply (bool_decide_unpack _). by vm_compute.
  - discriminate.
Defined.

(** ** Passes without a click, sessions, model calls *)

(** X4.  A pass in which no button is pressed (the page is drawn again,
    for instance after typing in a box) runs to its last line, leaves the
    session as it is, and draws the three output areas from the stored
    outputs, without a message or a model call. *)
Theorem pass_without_click_keeps_session model w s :
  initialised s →
  returned (script model w None s) = inl tt
  ∧ store (script model w None s) = s
  ∧ shown (script model w None s) = page_of s
  ∧ notices (shown (script model w None s)) = [].
Proof.
  intros Hs. rewrite script_idle by done. cbn [returned store shown].
  split_and!; try done. unfold page_of.
  by rewrite !notices_app, !notices_output_area.
Qed.

Lemma pass_without_click_keeps_session_witness :
  returned (script quota_exceeded long_notes_page None answered_session)
  = inl tt
  ∧ store (script quota_exceeded long_notes_page None answered_session)
    = answered_session
  ∧ shown (script quota_exceeded long_notes_page None answered_session)
    = page_of answered_session
  ∧ notices (shown (script quota_exceeded long_notes_page None
                      answered_session)) = [].
Proof.
  apply (pass_without_click_keeps_session quota_exceeded long_notes_page
           answered_session).
  apply (bool_decide_unpack _). by vm_compute.
Defined.

Lemma first_pass_store model w :
  store (script model w None ∅) = first_render.
Proof. by vm_compute. Qed.

Lemma well_typed_first_render : well_typed first_render.
Proof.
  split.
  - intros k v Hk. unfold text_slots in Hk.
    repeat (apply elem_of_cons in Hk as [-> | Hk];
            [vm_compute; intros [= <-]; by eexists|]).
    by apply elem_of_nil in Hk.
  - vm_compute. intros v [= <-]. by left.
Qed.

Lemma well_typed_cleared b s : well_typed s → well_typed (cleared b s).
Proof.
  intros Hs. destruct b; cbn [cleared]; try done;
    repeat first
      [ apply well_typed_insert_text; [discriminate|]
      | apply well_typed_insert_upload; [by left|] ];
    done.
Qed.

Lemma click_well_typed model w b w' s :
  initialised s → well_typed s → well_typed (store (click model w b w' s)).
Proof.
  intros Hs Ht. destruct (is_action b) eqn:Hb.
  - destruct (click_action_outcome model w b w' s Hs Hb) as (_ & -> & _).
    by apply (handler_confined model b w s Hb).
  - unfold is_action in Hb. apply negb_false_iff in Hb.
    rewrite click_clear by done. by apply well_typed_cleared.
Qed.

Lemma click_returns model w b w' s :
  initialised s → returned (click model w b w' s) = inl tt.
Proof.
  intros Hs. destruct (is_action b) eqn:Hb.
  - by destruct (click_action_outcome model w b w' s Hs Hb) as (-> & _).
  - unfold is_action in Hb. apply negb_false_iff in Hb.
    by rewrite click_clear.
Qed.

Lemma reachable_invariant s : reachable s → initialised s ∧ well_typed s.
Proof.
  induction 1 as [model w | model w s Hr [IHi IHt] | model w b w' s Hr [IHi IHt]].
  - rewrite first_pass_store.
    split; [apply first_render_initialised | apply well_typed_first_render].
  - by rewrite script_idle by done.
  - split; [by apply click_initialised | by apply click_well_typed].
Qed.

(** X5.  In every session a browser can reach from a fresh one, by passes
    and clicks in any order, with any widget contents and any behaviour of
    the model and the PDF parser: the seven slots exist, the text slots hold
    strings and [uploaded_file] holds [None] or a file, and every further
    pass or click runs to its last line (no attribute is read before it
    exists). *)
Theorem reachable_sessions_are_sound s :
  reachable s →
  initialised s
  ∧ well_typed s
  ∧ (∀ model w, returned (script model w None s) = inl tt)
  ∧ (∀ model w b w', returned (click model w b w' s) = inl tt).
Proof.
  intros Hr. destruct (reachable_invariant s Hr) as [Hi Ht].
  split_and!; try done.
  - intros model w. by rewrite script_idle by done.
  - intros model w b w'. by apply click_returns.
Qed.

Lemma reachable_sessions_are_sound_witness :
  initialised answered_session
  ∧ well_typed answered_session
  ∧ (∀ model w, returned (script model w None answered_session) = inl tt)
  ∧ (∀ model w b w', returned (click model w b w' answered_session) = inl tt).
Proof.
  apply (reachable_sessions_are_sound answered_session).
  apply (reachable_click echo photosynthesis_page ExplainConcept
           photosynthesis_page first_render).
  apply (reachable_first echo blank_page).
Defined.

Lemma clear_click_events model w b w' s :
  initialised s → is_clear b = true →
  prompts (shown (click model w b w' s)) = []
  ∧ notices (shown (click model w b w' s)) = [].
Proof.
  intros Hs Hb. rewrite click_clear by done. cbn [shown].
  assert (prompts (drawn_before b s) = [] ∧ notices (drawn_before b s) = [])
    as [Hp Hn].
  { destruct b; try discriminate; cbn [drawn_before];
      by rewrite ?prompts_app, ?notices_app, ?prompts_output_area,
           ?notices_output_area. }
  by rewrite !prompts_app, !notices_app, !prompts_output_area,
    !notices_output_area, Hp, Hn.
Qed.

(** X6.  A click sends at most one prompt to the model; a click on a Clear
    button sends none and shows no message. *)
Theorem click_asks_at_most_once model w b w' s :
  initialised s →
  (length (prompts (shown (click model w b w' s))) ≤ 1)%nat
  ∧ (is_clear b = true →
     prompts (shown (click model w b w' s)) = []
     ∧ notices (shown (click model w b w' s)) = []).
Proof.
  intros Hs. destruct (is_action b) eqn:Hb.
  - destruct (click_action_outcome model w b w' s Hs Hb) as (_ & _ & ->).
    rewrite prompts_pass_events. split.
    + destruct (handler_asks_once model b w s Hb) as [-> | (p & -> & _)];
        cbn; lia.
    + unfold is_action in Hb. intros Hc. by rewrite Hc in Hb.
  - unfold is_action in Hb. apply negb_false_iff in Hb.
    destruct (clear_click_events model w b w' s Hs Hb) as [Hp Hn].
    rewrite Hp, Hn. split; [cbn; lia | done].
Qed.

Lemma click_asks_at_most_once_witness :
  (length (prompts (shown (click echo long_notes_page SummarizeContent
                             long_notes_page first_render))) ≤ 1)%nat
  ∧ (is_clear SummarizeContent = true →
     prompts (shown (click echo long_notes_page SummarizeContent
                       long_notes_page first_render)) = []
     ∧ notices (shown (click echo long_notes_page SummarizeContent
                         long_notes_page first_render)) = []).
Proof.
  apply (click_asks_at_most_once echo long_notes_page SummarizeContent
           long_notes_page first_render).
  apply (bool_decide_unpack _). by vm_compute.
Defined.

(** ** What a press stores *)

(** X7.  A press with text in the field stores that text, whole, in the
    feature's input slot, whether the model answers or fails; for the
    summary (no file uploaded) the stored notes are the full notes, also
    when only their first 50,000 characters were sent. *)
Theorem typed_input_is_remembered model w b w' s :
  initialised s → is_action b = true →
  typed_input b w ≠ "" →
  (b = SummarizeContent → uploaded_file w = None) →
  store (click model w b w' s) !! input_slot (feature_of b)
  = Some (PStr (typed_input b w)).
Proof.
  intros Hs Hb Hc Hf.
  destruct (click_action_outcome model w b w' s Hs Hb) as (_ & -> & _).
  destruct (is_simple b) eqn:Hsimple.
  - rewrite (simple_button_asks model b w s Hsimple Hc). cbn [store].
    rewrite lookup_insert_ne by by destruct b.
    by rewrite lookup_insert_eq.
  - destruct b; try discriminate. cbn [handler feature_of input_slot typed_input] in *.
    pose proof (summarize_collect_typed w s (Hf eq_refl)) as E.
    apply truthy_true in Hc. rewrite Hc in E.
    rewrite (summarize_button_compose model w s _ _ _ E). cbn [store].
    rewrite summarize_send_keeps_input. by rewrite lookup_insert_eq.
Qed.

Lemma typed_input_is_remembered_witness :
  store (click quota_exceeded long_notes_page SummarizeContent long_notes_page
           first_render) !! "summarize_input"
  = Some (PStr long_notes).
Proof.
  apply (typed_input_is_remembered quota_exceeded long_notes_page
           SummarizeContent long_notes_page first_render).
  - apply (bool_decide_unpack _). by vm_compute.
  - reflexivity.
  - unfold long_notes_page, long_notes. cbn [typed_input notes_input].
    discriminate.
  - reflexivity.
Defined.

Lemma summarize_collect_no_error w s :
  returned (summarize_collect w s) ≠ inl "" →
  ∀ m, st_error m ∉ shown (summarize_collect w s).
Proof.
  destruct (uploaded_file w) as [f|] eqn:Hf.
  - destruct (extract_text_from_pdf f) as [t|e] eqn:Ht.
    + rewrite (summarize_collect_pdf w s f t Hf Ht).
      destruct (truthy (strip t)); cbn; [|done].
      intros _ m Hm. apply list_elem_of_singleton in Hm. discriminate.
    + by rewrite (summarize_collect_bad_pdf w s f e Hf Ht).
  - rewrite (summarize_collect_typed w s Hf).
    destruct (truthy (notes_input w)); cbn; [|done].
    intros _ m Hm. by apply elem_of_nil in Hm.
Qed.

Lemma handler_answer model b w s p T :
  is_action b = true →
  p ∈ prompts (shown (handler model b w s)) → model p = Ok T →
  store (handler model b w s) !! output_slot (feature_of b) = Some (PStr T)
  ∧ ∀ m, st_error m ∉ shown (handler model b w s).
Proof.
  intros Hb Hp HT. destruct (is_simple b) eqn:Hsimple.
  - destruct (decide (typed_input b w = "")) as [Hc | Hc].
    { rewrite (handler_no_input model b w s) in Hp
        by by apply simple_button_no_input.
      by apply elem_of_nil in Hp. }
    rewrite (simple_button_asks model b w s Hsimple Hc) in *.
    cbn [store shown] in *.
    assert (p = prompt_template b (typed_input b w)) as <-.
    { rewrite prompts_app in Hp. cbn [prompts] in Hp.
      destruct (model (prompt_template b (typed_input b w)));
        apply list_elem_of_singleton in Hp; done. }
    rewrite HT, lookup_insert_eq. split; [done|].
    intros m Hm.
    repeat (apply elem_of_cons in Hm as [Hm | Hm]; [discriminate|]).
    by apply elem_of_nil in Hm.
  - destruct b; try discriminate.
    cbn [handler feature_of output_slot] in *.
    destruct (summarize_collect_events w s) as [Hp1 _].
    pose proof (summarize_collect_no_error w s) as Hq1.
    destruct (summarize_collect_run w s) as (c & s1 & l1 & E & _).
    rewrite E in Hp1, Hq1. cbn [returned shown] in Hp1, Hq1.
    rewrite (summarize_button_compose model w s c s1 l1 E) in *.
    cbn [store shown] in *.
    rewrite prompts_app, Hp1, app_nil_l in Hp.
    destruct (decide (c = "")) as [-> | Hc].
    { rewrite summarize_send_empty in Hp. by apply elem_of_nil in Hp. }
    assert (∀ m, st_error m ∉ l1) as Hl1 by (apply Hq1; congruence).
    destruct (Z.le_gt_cases (len c) MAX_CHARS_FOR_GEMINI) as [Hlen | Hlen].
    + rewrite summarize_send_short in * by done. cbn [store shown] in *.
      assert (p = summarize_prompt c) as <-.
      { rewrite prompts_app in Hp. cbn [prompts] in Hp.
        destruct (model (summarize_prompt c));
          apply list_elem_of_singleton in Hp; done. }
      rewrite HT, lookup_insert_eq. split; [done|].
      intros m Hm. apply elem_of_app in Hm as [Hm | Hm]; [by apply (Hl1 m)|].
      repeat (apply elem_of_cons in Hm as [Hm | Hm]; [discriminate|]).
      by apply elem_of_nil in Hm.
    + rewrite summarize_send_long in * by done. cbn [store shown] in *.
      assert (p = summarize_prompt (slice_to c MAX_CHARS_FOR_GEMINI)) as <-.
      { rewrite prompts_app in Hp. cbn [prompts] in Hp.
        destruct (model (summarize_prompt _));
          apply list_elem_of_singleton in Hp; done. }
      rewrite HT, lookup_insert_eq. split; [done|].
      intros m Hm. apply elem_of_app in Hm as [Hm | Hm]; [by apply (Hl1 m)|].
      repeat (apply elem_of_cons in Hm as [Hm | Hm]; [discriminate|]).
      by apply elem_of_nil in Hm.
Qed.

(** X8.  Whenever a click makes a model call that returns the text [T],
    the feature's output slot ends up holding exactly [T], no error is shown
    on the page, and that call is the only one of the click. *)
Theorem model_answer_is_stored model w b w' s p T :
  initialised s →
  generate_content p ∈ shown (click model w b w' s) →
  model p = Ok T →
  store (click model w b w' s) !! output_slot (feature_of b) = Some (PStr T)
  ∧ (∀ m, st_error m ∉ shown (click model w b w' s))
  ∧ prompts (shown (click model w b w' s)) = [p].
Proof.
  intros Hs Hp HT. apply elem_of_prompts in Hp.
  destruct (is_action b) eqn:Hb.
  - destruct (click_action_outcome model w b w' s Hs Hb) as (_ & Hst & Hsh).
    rewrite Hst, Hsh, prompts_pass_events in *.
    destruct (handler_answer model b w s p T Hb Hp HT) as [Hslot Herr].
    split_and!; [done | |].
    + intros m Hm. apply notice_in_pass_events in Hm; [|done].
      by apply (Herr m).
    + destruct (handler_asks_once model b w s Hb) as [H0 | (p0 & H1 & _)].
      * rewrite H0 in Hp. by apply elem_of_nil in Hp.
      * rewrite H1 in *. by apply list_elem_of_singleton in Hp as ->.
  - exfalso. unfold is_action in Hb. apply negb_false_iff in Hb.
    destruct (clear_click_events model w b w' s Hs Hb) as [H0 _].
    rewrite H0 in Hp. by apply elem_of_nil in Hp.
Qed.

Lemma model_answer_is_stored_witness :
  store (click echo pdf_and_notes_page SummarizeContent pdf_and_notes_page
           first_render) !! "summarize_output"
  = Some (PStr ("Answer to: "
                +:+ summarize_prompt ("Cells" +:+ NL +:+ "Mitosis" +:+ NL)))
  ∧ (∀ m, st_error m
          ∉ shown (click echo pdf_and_notes_page SummarizeContent
                     pdf_and_notes_page first_render))
  ∧ prompts (shown (click echo pdf_and_notes_page SummarizeContent
                      pdf_and_notes_page first_render))
    = [summarize_prompt ("Cells" +:+ NL +:+ "Mitosis" +:+ NL)].
Proof.
  apply (model_answer_is_stored echo pdf_and_notes_page SummarizeContent
           pdf_and_notes_page first_render
           (summarize_prompt ("Cells" +:+ NL +:+ "Mitosis" +:+ NL))).
  - apply (bool_decide_unpack _). by vm_compute.
  - vm_compute. do 3 apply list_elem_of_further. apply list_elem_of_here.
  - reflexivity.
Defined.

Lemma mentions_template b x :
  is_action b = true → mentions (prompt_template b x) x.
Proof.
  destruct b; try discriminate; intros _; cbn [prompt_template].
  - apply mentions_suffix.
  - apply mentions_suffix.
  - apply mentions_intro.
  - apply mentions_intro.
Qed.

(** X9.  Explain Concept, Generate Quiz and Generate Flashcards send the
    typed text whole, whatever its length: the one prompt of the click is
    the button's template around the entire text, the prompt contains the
    text, and no warning is shown (the 50,000-character limit is the
    summary's alone). *)
Theorem typed_text_is_sent_whole model w b w' s :
  initialised s → is_simple b = true →
  typed_input b w ≠ "" →
  prompts (shown (click model w b w' s))
  = [prompt_template b (typed_input b w)]
  ∧ mentions (prompt_template b (typed_input b w)) (typed_input b w)
  ∧ ∀ m, st_warning m ∉ shown (click model w b w' s).
Proof.
  intros Hs Hsimple Hc.
  assert (is_action b = true) as Hb by (by destruct b).
  destruct (click_action_outcome model w b w' s Hs Hb) as (_ & _ & ->).
  rewrite prompts_pass_events.
  rewrite (simple_button_asks model b w s Hsimple Hc). cbn [shown].
  split_and!.
  - rewrite prompts_app. cbn [prompts]. by destruct (model _).
  - by apply mentions_template.
  - intros m Hm. apply notice_in_pass_events in Hm; [|done].
    apply elem_of_app in Hm as [Hm | Hm].
    + repeat (apply elem_of_cons in Hm as [Hm | Hm]; [discriminate|]).
      by apply elem_of_nil in Hm.
    + destruct (model _);
        repeat (apply elem_of_cons in Hm as [Hm | Hm]; [discriminate|]);
        by apply elem_of_nil in Hm.
Qed.

Lemma typed_text_is_sent_whole_witness :
  prompts (shown (click echo (Build_widgets long_notes "" None "")
                    ExplainConcept blank_page first_render))
  = [explain_prompt long_notes]
  ∧ mentions (explain_prompt long_notes) long_notes
  ∧ ∀ m, st_warning m
         ∉ shown (click echo (Build_widgets long_notes "" None "")
                    ExplainConcept blank_page first_render).
Proof.
  apply (typed_text_is_sent_whole echo (Build_widgets long_notes "" None "")
           ExplainConcept blank_page first_render).
  - apply (bool_decide_unpack _). by vm_compute.
  - reflexivity.
  - unfold long_notes. cbn [typed_input concept_input]. discriminate.
Defined.

(** ** Clear, twice *)

Lemma cleared_idempotent b s : cleared b (cleared b s) = cleared b s.
Proof.
  apply map_eq. intros k.
  destruct b; cbn [cleared]; try done;
    rewrite !lookup_insert; repeat case_decide; done.
Qed.

Lemma output_area_cleared b s :
  is_clear b = true →
  output_area (feature_of b) (cleared b s)
  = [st_info "AI output will appear here."].
Proof.
  destruct b; try discriminate; intros _;
    cbn [cleared feature_of output_area]; unfold slot;
    rewrite ?lookup_insert_ne by discriminate;
    by rewrite lookup_insert_eq.
Qed.

Lemma output_area_cleared_other b s f :
  f ≠ feature_of b → output_area f (cleared b s) = output_area f s.
Proof.
  intros Hf. apply output_area_agree, cleared_frame.
  by apply output_slot_foreign.
Qed.

(** X10.  A click on a Clear button draws the placeholder "AI output will
    appear here." where the feature's output was: the events of the click
    are what the aborted pass had drawn, then the three output areas with
    the placeholder in the cleared feature's place and the other two as
    they were.  A second click on the same Clear button leaves the session
    exactly as the first one did. *)
Theorem clear_is_idempotent model w b w' s :
  initialised s → is_clear b = true →
  shown (click model w b w' s)
  = drawn_before b s
    ++ match feature_of b with
       | Explain =>
           [st_info "AI output will appear here."]
           ++ output_area Summarize s ++ output_area Quiz s
       | Summarize =>
           output_area Explain s
           ++ [st_info "AI output will appear here."]
           ++ output_area Quiz s
       | Quiz =>
           output_area Explain s ++ output_area Summarize s
           ++ [st_info "AI output will appear here."]
       end
  ∧ st_info "AI output will appear here." ∈ shown (click model w b w' s)
  ∧ store (click model w b w' (store (click model w b w' s)))
    = store (click model w b w' s).
Proof.
  intros Hs Hb.
  assert (shown (click model w b w' s)
          = drawn_before b s
            ++ match feature_of b with
               | Explain =>
                   [st_info "AI output will appear here."]
                   ++ output_area Summarize s ++ output_area Quiz s
               | Summarize =>
                   output_area Explain s
                   ++ [st_info "AI output will appear here."]
                   ++ output_area Quiz s
               | Quiz =>
                   output_area Explain s ++ output_area Summarize s
                   ++ [st_info "AI output will appear here."]
               end) as Hshown.
  { rewrite (click_clear model w b w' s) by done. cbn [shown]. f_equal.
    rewrite <- (output_area_cleared b s Hb).
    destruct b; try discriminate; cbn [feature_of];
      rewrite ?(output_area_cleared_other _ s Explain) by done;
      rewrite ?(output_area_cleared_other _ s Summarize) by done;
      rewrite ?(output_area_cleared_other _ s Quiz) by done;
      done. }
  split_and!.
  - exact Hshown.
  - rewrite Hshown. apply elem_of_app. right.
    destruct (feature_of b); rewrite !elem_of_app, !list_elem_of_singleton;
      auto.
  - rewrite (click_clear model w b w' s) by done. cbn [store].
    rewrite (click_clear model w b w' (cleared b s))
      by (done || by apply initialised_cleared).
    cbn [store]. apply cleared_idempotent.
Qed.

Lemma clear_is_idempotent_witness :
  shown (click echo blank_page ClearExplain blank_page answered_session)
  = drawn_before ClearExplain answered_session
    ++ [st_info "AI output will appear here."]
    ++ output_area Summarize answered_session
    ++ output_area Quiz answered_session
  ∧ st_info "AI output will appear here."
    ∈ shown (click echo blank_page ClearExplain blank_page answered_session)
  ∧ store (click echo blank_page ClearExplain blank_page
             (store (click echo blank_page ClearExplain blank_page
                       answered_session)))
    = store (click echo blank_page ClearExplain blank_page answered_session).
Proof.
  apply (clear_is_idempotent echo blank_page ClearExplain blank_page
           answered_session).
  - apply (bool_decide_unpack _). by vm_compute.
  - reflexivity.
Defined.

(** ** Documents that cannot be used *)

Lemma extract_pages_raise acc before texts page after e :
  map extract_text before = map Ok texts →
  extract_text page = Raise e →
  extract_pages acc (before ++ page :: after) = Raise e.
Proof.
  revert acc texts. induction before as [|p before IH]; intros acc texts Hb Hp.
  - cbn. by rewrite Hp.
  - destruct texts as [|t texts]; [done|]. cbn in Hb.
    injection Hb as Ht Hrest. cbn. rewrite Ht. by apply (IH _ texts).
Qed.

(** X11.  The extractor fails as a whole: on a file the parser rejects it
    raises the parser's exception, and when a page cannot be read it raises
    that page's exception, the first one in page order, and returns none of
    the text read from the pages before it. *)
Theorem extract_text_from_pdf_raises f e :
  (PdfReader f = Raise e → extract_text_from_pdf f = Raise e)
  ∧ (∀ before texts page after,
       PdfReader f = Ok (before ++ page :: after) →
       map extract_text before = map Ok texts →
       extract_text page = Raise e →
       extract_text_from_pdf f = Raise e).
Proof.
  unfold extract_text_from_pdf. split.
  - by intros ->.
  - intros before texts page after -> Hb Hp.
    by apply (extract_pages_raise "" before texts).
Qed.

(** X12.  When the uploaded file cannot be read as a PDF, a click on
    Summarize Content draws, after the explain area: the processing note,
    the reading error with the exception's message, the empty-input
    warning, then the placeholder "AI output will appear here." as the
    summary's output area, then the quiz area; it calls no model.  The
    summary output slot ends as the empty text (the error text assigned to
    it is overwritten), and the [uploaded_file] slot is not changed. *)
Theorem unparsable_pdf_is_reported model w w' s f e :
  initialised s →
  uploaded_file w = Some f →
  extract_text_from_pdf f = Raise e →
  shown (click model w SummarizeContent w' s)
  = output_area Explain s
    ++ [st_write "Processing PDF...";
        st_error ("Error reading PDF: " +:+ str e
                  +:+ ". Please ensure it's a valid PDF or try pasting text.");
        st_warning "Please paste notes or upload a PDF document to summarize.";
        st_info "AI output will appear here."]
    ++ output_area Quiz s
  ∧ notices (shown (click model w SummarizeContent w' s))
    = [st_write "Processing PDF...";
       st_error ("Error reading PDF: " +:+ str e
                 +:+ ". Please ensure it's a valid PDF or try pasting text.");
       st_warning "Please paste notes or upload a PDF document to summarize."]
  ∧ prompts (shown (click model w SummarizeContent w' s)) = []
  ∧ store (click model w SummarizeContent w' s) !! "summarize_output"
    = Some (PStr "")
  ∧ store (click model w SummarizeContent w' s) !! "uploaded_file"
    = s !! "uploaded_file".
Proof.
  intros Hs Hf He.
  pose proof (summarize_collect_bad_pdf w s f e Hf He) as E.
  destruct (click_summarize model w w' s _ _ _ Hs E) as [Hst Hsh].
  rewrite Hst, Hsh, notices_pass_events, prompts_pass_events.
  rewrite summarize_send_empty. cbn [store shown]. split_and!.
  - cbn [pass_events]. f_equal.
    rewrite !(output_area_insert_other Quiz) by done.
    cbn [output_area]. unfold slot. by rewrite lookup_insert_eq.
  - done.
  - done.
  - by rewrite lookup_insert_eq.
  - by rewrite !lookup_insert_ne by done.
Qed.

Lemma unparsable_pdf_is_reported_witness :
  shown (click echo corrupt_pdf_page SummarizeContent corrupt_pdf_page
           first_render)
  = output_area Explain first_render
    ++ [st_write "Processing PDF...";
        st_error ("Error reading PDF: " +:+ "EOF marker not found"
                  +:+ ". Please ensure it's a valid PDF or try pasting text.");
        st_warning "Please paste notes or upload a PDF document to summarize.";
        st_info "AI output will appear here."]
    ++ output_area Quiz first_render
  ∧ notices (shown (click echo corrupt_pdf_page SummarizeContent
                      corrupt_pdf_page first_render))
    = [st_write "Processing PDF...";
       st_error ("Error reading PDF: " +:+ "EOF marker not found"
                 +:+ ". Please ensure it's a valid PDF or try pasting text.");
       st_warning "Please paste notes or upload a PDF document to summarize."]
  ∧ prompts (shown (click echo corrupt_pdf_page SummarizeContent
                      corrupt_pdf_page first_render)) = []
  ∧ store (click echo corrupt_pdf_page SummarizeContent corrupt_pdf_page
             first_render) !! "summarize_output"
    = Some (PStr "")
  ∧ store (click echo corrupt_pdf_page SummarizeContent corrupt_pdf_page
             first_render) !! "uploaded_file"
    = first_render !! "uploaded_file".
Proof.
  apply (unparsable_pdf_is_reported echo corrupt_pdf_page corrupt_pdf_page
           first_render corrupt_pdf (Exn "EOF marker not found")).
  - apply (bool_decide_unpack _). by vm_compute.
  - reflexivity.
  - reflexivity.
Defined.

(** *** White space *)

Lemma all_space_app a b : all_space (a +:+ b) = all_space a && all_space b.
Proof.
  induction a as [|c a IH]; [done|].
  change (isspace c && all_space (a +:+ b)
          = (isspace c && all_space a) && all_space b).
  rewrite IH. by rewrite andb_assoc.
Qed.

Lemma all_space_lstrip s : all_space (lstrip s) = all_space s.
Proof.
  induction s as [|c s IH]; [done|]. cbn.
  destruct (isspace c) eqn:Hc; [done|]. cbn. by rewrite Hc.
Qed.

Lemma rstrip_empty s : rstrip s = "" → all_space s = true.
Proof.
  induction s as [|c s IH]; [done|]. cbn.
  destruct (rstrip s); [|done]. destruct (isspace c); [auto | done].
Qed.

Lemma strip_empty_iff s : strip s = "" ↔ whitespace_only s.
Proof.
  split; [|apply strip_whitespace_only].
  unfold strip, whitespace_only. intros H%rstrip_empty.
  by rewrite all_space_lstrip in H.
Qed.

Lemma all_space_pages texts :
  all_space (pages_each_ended_by_newline texts) = forallb all_space texts.
Proof.
  induction texts as [|t texts IH]; [done|]. cbn [pages_each_ended_by_newline fold_right forallb].
  rewrite !all_space_app. fold (pages_each_ended_by_newline texts).
  rewrite IH. by rewrite andb_true_l.
Qed.

(** X13.  For a document that parses and whose pages all yield text, a
    click on Summarize Content calls the model exactly when some page's text
    has a character that is not white space; when every page's text is
    empty or white space the unreadable-PDF warning is shown instead.  In
    both cases the file is kept in the [uploaded_file] slot. *)
Theorem pdf_is_summarized_iff_some_page_has_text model w w' s f pages texts :
  initialised s →
  uploaded_file w = Some f →
  PdfReader f = Ok pages →
  map extract_text pages = map Ok texts →
  (prompts (shown (click model w SummarizeContent w' s)) = []
   ↔ Forall whitespace_only texts)
  ∧ (st_warning unreadable_pdf_warning
     ∈ shown (click model w SummarizeContent w' s)
     ↔ Forall whitespace_only texts)
  ∧ store (click model w SummarizeContent w' s) !! "uploaded_file"
    = Some (PFile f).
Proof.
  intros Hs Hf Hp Ht.
  assert (extract_text_from_pdf f = Ok (pages_each_ended_by_newline texts))
    as Hx.
  { unfold extract_text_from_pdf. rewrite Hp.
    by rewrite (extract_pages_ok "" pages texts Ht). }
  set (text := pages_each_ended_by_newline texts) in *.
  assert (Forall whitespace_only texts ↔ truthy (strip text) = false) as Hiff.
  { rewrite truthy_false, strip_empty_iff. unfold whitespace_only, text.
    rewrite all_space_pages, forallb_forall, Forall_forall.
    split; intros H x Hx'; apply H; by apply list_elem_of_In. }
  pose proof (summarize_collect_pdf w s f text Hf Hx) as E.
  destruct (truthy (strip text)) eqn:Hstrip.
  - destruct (click_summarize model w w' s _ _ _ Hs E) as [Hst Hsh].
    rewrite Hst, Hsh, prompts_pass_events, prompts_app,
      notice_in_pass_events by done.
    assert (text ≠ "") as Hne by (by intros Heq; rewrite Heq in Hstrip).
    assert (∃ p l,
              shown (summarize_send model text
                       (<["uploaded_file" := PFile f]> s)) = l
              ∧ prompts l = [p] ∧ (st_warning unreadable_pdf_warning ∉ l)
              ∧ store (summarize_send model text
                         (<["uploaded_file" := PFile f]> s)) !! "uploaded_file"
                = Some (PFile f))
      as (p & l & -> & Hl & Hw & Hu).
    { destruct (Z.le_gt_cases (len text) MAX_CHARS_FOR_GEMINI) as [Hlen | Hlen].
      - rewrite summarize_send_short by done. cbn [shown store].
        eexists _, _. split_and!; [done | | |].
        + rewrite prompts_app. cbn [prompts]. by destruct (model _).
        + intros Hm. destruct (model _);
            repeat (apply elem_of_cons in Hm as [Hm | Hm]; [discriminate|]);
            by apply elem_of_nil in Hm.
        + rewrite lookup_insert_ne by done. by rewrite lookup_insert_eq.
      - rewrite summarize_send_long by done. cbn [shown store].
        eexists _, _. split_and!; [done | | |].
        + rewrite prompts_app. cbn [prompts]. by destruct (model _).
        + intros Hm. destruct (model _);
            repeat (apply elem_of_cons in Hm as [Hm | Hm]; [discriminate|]);
            by apply elem_of_nil in Hm.
        + rewrite lookup_insert_ne by done. by rewrite lookup_insert_eq. }
    rewrite Hl. cbn [prompts app]. split_and!; [| |done].
    + split; [done|]. intros H%Hiff. discriminate.
    + split; [|intros H%Hiff; discriminate].
      intros Hm. apply elem_of_app in Hm as [Hm | Hm]; [|done].
      apply list_elem_of_singleton in Hm. discriminate.
  - destruct (click_summarize model w w' s _ _ _ Hs E) as [Hst Hsh].
    rewrite Hst, Hsh, prompts_pass_events, prompts_app,
      notice_in_pass_events by done.
    rewrite summarize_send_empty. cbn [shown store prompts app].
    split_and!.
    + split; [by intros _; apply Hiff | done].
    + split; [by intros _; apply Hiff|]. intros _.
      apply list_elem_of_further, list_elem_of_here.
    + rewrite !lookup_insert_ne by done. by rewrite lookup_insert_eq.
Qed.

Lemma pdf_is_summarized_iff_some_page_has_text_witness :
  (prompts (shown (click echo scanned_pdf_page SummarizeContent
                     scanned_pdf_page first_render)) = []
   ↔ Forall whitespace_only [""; "  "])
  ∧ (st_warning unreadable_pdf_warning
     ∈ shown (click echo scanned_pdf_page SummarizeContent scanned_pdf_page
                first_render)
     ↔ Forall whitespace_only [""; "  "])
  ∧ store (click echo scanned_pdf_page SummarizeContent scanned_pdf_page
             first_render) !! "uploaded_file"
    = Some (PFile scanned_pdf).
Proof.
  apply (pdf_is_summarized_iff_some_page_has_text echo scanned_pdf_page
           scanned_pdf_page first_render scanned_pdf
           (map (λ t, {| extract_text := Ok t |}) [""; "  "]) [""; "  "]).
  - apply (bool_decide_unpack _). by vm_compute.
  - reflexivity.
  - reflexivity.
  - reflexivity.
Defined.

(** ** The counter under the notes box *)

Lemma truthy_snoc word c : truthy (word +:+ String c EmptyString) = true.
Proof. by destruct word. Qed.

Lemma split_from_nil word s :
  split_from word s = [] ↔ word = "" ∧ all_space s = true.
Proof.
  revert word. induction s as [|c s IH]; intros word; cbn.
  - destruct word; cbn; split; try done. by intros [? _].
  - destruct (isspace c) eqn:Hc.
    + destruct word; cbn.
      * rewrite IH. split; [by intros [_ ?] | by intros [_ ?]].
      * split; [done | by intros [? _]].
    + rewrite IH. pose proof (truthy_snoc word c) as Hw.
      split; [|by intros [_ ?]]. intros [Heq _]. by rewrite Heq in Hw.
Qed.

Lemma split_from_length word s :
  (2 * length (split_from word s)
   ≤ String.length s + if truthy word then 2 else 1)%nat.
Proof.
  revert word. induction s as [|c s IH]; intros word; cbn.
  - destruct (truthy word); cbn; lia.
  - destruct (isspace c).
    + pose proof (IH "") as H0. cbn [truthy] in H0.
      destruct (truthy word); cbn [length]; lia.
    + pose proof (IH (word +:+ String c EmptyString)) as H1.
      rewrite truthy_snoc in H1. destruct (truthy word); lia.
Qed.

Lemma any_space_snoc word c :
  any_space (word +:+ String c EmptyString) = any_space word || isspace c.
Proof.
  induction word as [|d word IH].
  { change (isspace c || false = false || isspace c). by destruct (isspace c). }
  change (isspace d || any_space (word +:+ String c EmptyString)
          = (isspace d || any_space word) || isspace c).
  rewrite IH. by rewrite orb_assoc.
Qed.

Lemma split_from_words word s :
  any_space word = false →
  Forall (λ x, x ≠ "" ∧ any_space x = false) (split_from word s).
Proof.
  revert word. induction s as [|c s IH]; intros word Hw; cbn.
  - destruct word; [done|]. by repeat constructor.
  - destruct (isspace c) eqn:Hc.
    + destruct word; cbn; [by apply IH|].
      constructor; [done | by apply IH].
    + apply IH. by rewrite any_space_snoc, Hw, Hc.
Qed.

(** X14.  The word counter under the notes box shows zero words exactly
    when the notes are empty or white space only, that is, exactly when
    [notes_input.strip()] is empty. *)
Theorem word_count_zero_iff_blank notes_input :
  (word_count notes_input = 0 ↔ whitespace_only notes_input)
  ∧ (word_count notes_input = 0 ↔ strip notes_input = "").
Proof.
  assert (word_count notes_input = 0 ↔ whitespace_only notes_input) as H.
  { unfold word_count, split, whitespace_only. split.
    - intros H0.
      destruct (split_from "" notes_input) eqn:E; [|cbn [length] in H0; lia].
      by apply split_from_nil in E as [_ ?].
    - intros Hw.
      by rewrite (proj2 (split_from_nil "" notes_input) (conj eq_refl Hw)). }
  split; [done|]. by rewrite strip_empty_iff.
Qed.

(** X15.  The two numbers of the counter are consistent: the words counted
    are non-empty and free of white space, and there are at most half as
    many words as characters, rounded up. *)
Theorem word_count_bounds notes_input :
  0 ≤ word_count notes_input
  ∧ 2 * word_count notes_input ≤ char_count notes_input + 1
  ∧ Forall (λ x, x ≠ "" ∧ any_space x = false) (split notes_input).
Proof.
  unfold word_count, char_count, split, len.
  pose proof (split_from_length "" notes_input) as H. cbn [truthy] in H.
  split_and!; [lia | lia |]. by apply split_from_words.
Qed.

(** ** Start-up *)


(** ** Start-up *)


(** X17.  Once the app has started (key present, model constructed), a run
    of the file on a reachable session ends at its last line when no button
    or an action button was clicked, and ends with the rerun request exactly
    when a Clear button was clicked; a missing attribute never stops it. *)
Theorem app_pass_outcome env model w clicked s :
  reachable s →
  key_missing (GEMINI_API_KEY env) = false →
  GenerativeModel env = Ok model →
  finished (app env w clicked s)
  = match clicked with
    | Some b =>
        if is_clear b then inr (Interrupted RerunException) else inl tt
    | None => inl tt
    end.
Proof.
  intros [Hi _]%reachable_invariant Hk Hm. unfold app. rewrite Hk, Hm.
  cbn [finished]. destruct clicked as [b|].
  - destruct (is_clear b) eqn:Hb.
    + by rewrite script_clear.
    + assert (is_action b = true) as Ha by (unfold is_action; by rewrite Hb).
      destruct (handler_run model b w s Ha) as (s' & l & E & G).
      by rewrite (script_action model w b s s' l).
  - by rewrite script_idle.
Qed.

Lemma app_pass_outcome_witness :
  finished (app {| GEMINI_API_KEY := Some "k"; GenerativeModel := Ok echo |}
              blank_page (Some ClearQuiz) answered_session)
  = inr (Interrupted RerunException).
Proof.
  apply (app_pass_outcome
           {| GEMINI_API_KEY := Some "k"; GenerativeModel := Ok echo |}
           echo blank_page (Some ClearQuiz) answered_session).
  - apply (reachable_click echo photosynthesis_page ExplainConcept
             photosynthesis_page first_render).
    apply (reachable_first echo blank_page).
  - reflexivity.
  - reflexivity.
Defined.
